(** * qsa.rtxi: an RTXI experiment as an array of measurements

    Shallow embedding of [src/qsa/rtxi.py] (class [Experiment]) and the
    properties of its query surface: [count], [get_measurement], [average].

    Numbers are binary64 values, as numpy's float64 arrays hold them; their
    arithmetic is the IEEE 754 specification of the Standard Library
    ([SpecFloat], precision 53, exponent bound 1024, round to nearest even).
    Calls that can raise run in a small monad of results and events, so
    that what a call did before it raised can be stated. *)

From Stdlib Require Import String ZArith List Bool Lia Permutation.
From Stdlib Require Import SpecFloat DecimalString DecimalPos DecimalZ.
Import ListNotations.
Local Open Scope Z_scope.

(** ** binary64 arithmetic *)

Module F64.

Definition prec : Z := 53.
Definition emax : Z := 1024.

Definition float : Type := spec_float.

Definition add : float -> float -> float := SFadd prec emax.
Definition div : float -> float -> float := SFdiv prec emax.

(** Conversion of a Python [int] to a double (round to nearest even). *)
Definition of_Z (z : Z) : float := binary_normalize prec emax z 0 false.

Definition zero : float := S754_zero false.

(** The values of the format: canonical mantissa, exponent in range. *)
Definition valid (x : float) : bool := valid_binary prec emax x.

Definition is_zero (x : float) : bool :=
  match x with S754_zero _ => true | _ => false end.

(** Equality of values as an array comparison sees it: the two zeros are
    one value, and a NaN stands where a NaN stands. *)
Definition same (x y : float) : Prop :=
  x = y \/ (is_zero x = true /\ is_zero y = true).

(** The values whose half is exact and adds up to them again: not the
    negative zero, and no finite value at the smallest exponent [2^-1074]. *)
Definition halves_exactly (x : float) : bool :=
  match x with
  | S754_zero s => negb s
  | S754_finite _ _ e => -1074 <? e
  | _ => true
  end.

End F64.

(** ** Python values, exceptions and the execution monad *)

(** A one-dimensional numpy array of float64. *)
Definition ndarray : Type := list F64.float.

(** What the accumulators of [average] hold: the Python [int] they start
    from, or the array that numpy returns once an array has been added. *)
Inductive value : Type :=
| PyInt (z : Z)
| NdArray (a : ndarray).

Inductive exn : Type :=
| IndexError (msg : string)
| NotImplementedError (msg : string)
| ValueError (shape1 shape2 : nat).
(* [ValueError m n]: numpy's "operands could not be broadcast together with
   shapes (m,) (n,)" *)

Inductive result (A : Type) : Type :=
| Ok (a : A)
| Raise (e : exn).
Arguments Ok {A} a.
Arguments Raise {A} e.

(** What [average] has done so far, in program order: the range test of an
    index (source line 124) and the start of the accumulation of the
    measurement at an index (source lines 127 to 129). *)
Inductive event : Type :=
| Validate (index : Z)
| Accumulate (index : Z).

(** State and error monad: the state is the trace of events, which survives
    a raised exception. *)
Definition M (A : Type) : Type := list event -> result A * list event.

Definition ret {A} (a : A) : M A := fun log => (Ok a, log).

Definition bind {A B} (m : M A) (k : A -> M B) : M B :=
  fun log =>
    match m log with
    | (Ok a, log') => k a log'
    | (Raise e, log') => (Raise e, log')
    end.

Definition raise {A} (e : exn) : M A := fun log => (Raise e, log).

Definition tell (ev : event) : M unit := fun log => (Ok tt, log ++ [ev]).

Definition lift {A} (r : result A) : M A := fun log => (r, log).

Definition run {A} (m : M A) : result A * list event := m [].

Definition outcome {A} (m : M A) : result A := fst (run m).

Definition events {A} (m : M A) : list event := snd (run m).

Declare Scope monad_scope.
Delimit Scope monad_scope with monad.
Notation "x <- m ;; k" := (bind m (fun x => k))
  (at level 100, m at next level, right associativity) : monad_scope.
Notation "m ;;; k" := (bind m (fun _ => k))
  (at level 100, right associativity) : monad_scope.

(** ** Python and numpy primitives used by the module *)

(** ['%d' % index] *)
Definition format_d (index : Z) : string :=
  NilZero.string_of_int (Z.to_int index).

(** [l[index]] on a Python list. *)
Definition getitem {A} (l : list A) (index : Z) : result A :=
  let i := if index <? 0 then index + Z.of_nat (length l) else index in
  if i <? 0 then Raise (IndexError "list index out of range")
  else match nth_error l (Z.to_nat i) with
       | Some a => Ok a
       | None => Raise (IndexError "list index out of range")
       end.

(** [a / n] for a float64 array [a] and a Python [int] n. *)
Definition array_div (a : ndarray) (n : nat) : ndarray :=
  map (fun v => F64.div v (F64.of_Z (Z.of_nat n))) a.

Fixpoint zip_add (a b : ndarray) : ndarray :=
  match a, b with
  | u :: a', v :: b' => F64.add u v :: zip_add a' b'
  | _, _ => []
  end.

(** [a + b] for two float64 arrays, with numpy's broadcasting of a
    one-element operand. *)
Definition array_add (a b : ndarray) : result ndarray :=
  if (length a =? length b)%nat then Ok (zip_add a b)
  else match a, b with
       | [u], _ => Ok (map (fun v => F64.add u v) b)
       | _, [v] => Ok (map (fun u => F64.add u v) a)
       | _, _ => Raise (ValueError (length a) (length b))
       end.

(** [acc + a] where [acc] is an accumulator of [average]. *)
Definition value_add (acc : value) (a : ndarray) : result value :=
  match acc with
  | PyInt z => Ok (NdArray (map (fun v => F64.add (F64.of_Z z) v) a))
  | NdArray b =>
      match array_add b a with
      | Ok c => Ok (NdArray c)
      | Raise e => Raise e
      end
  end.

(** ** The decoded experiment record *)

(** The value of [json.loads(text)], at the shape the constructor reads it:
    the keys it looks up, numbers as doubles, [trace_count] and
    [trace_alternance] as integers.  Reading the file and decoding it come
    before; a text without one of the keys raises there and builds no
    experiment. *)
Module Json.
Record segment : Type :=
  { time : list F64.float;
    stimulation : list F64.float;
    response : list F64.float }.

Record trace : Type :=
  { step : segment; multisine : segment; drop : segment }.

Record record : Type :=
  { version : string;
    dt : F64.float;
    duration : F64.float;
    frequencies : list F64.float;
    amplitudes : list F64.float;
    phases : list F64.float;
    rest_level : F64.float;
    step_level : F64.float;
    step_delay : F64.float;
    drop_delay : F64.float;
    trace_count : Z;
    trace_pause : F64.float;
    trace_alternance : Z;
    traces : list trace }.
End Json.

(** ** qsa.measurement *)

Module measurement.
(** Modelled from the spec: the class [qsa.measurement.Measurement] is not
    part of the module under study.  Its constructor takes
    [(dt, duration, frequencies, t, x, y)] and the object holds them,
    readable as fields.  [A] is the type of the three series: arrays, as the
    specification has them, in [get_measurement]; in [average] what the
    accumulators hold when the constructor is called, which for an empty
    list is still the integer 0.  The record says what the constructor is
    given; what the class of the repository does with an integer in place of
    an array is not known here, and nothing below relies on it. *)
Record Measurement (A : Type) : Type :=
  { dt : F64.float;
    duration : F64.float;
    frequencies : ndarray;
    t : A;
    x : A;
    y : A }.
Arguments Build_Measurement {A}.
Arguments dt {A}.
Arguments duration {A}.
Arguments frequencies {A}.
Arguments t {A}.
Arguments x {A}.
Arguments y {A}.
End measurement.
Import measurement.

(** ** class Experiment *)

(** [numpy.array(l)] for a list of numbers. *)
Definition numpy_array (l : list F64.float) : ndarray := l.

Record Segment : Type :=
  { time : ndarray; stimulation : ndarray; response : ndarray }.

Record Trace : Type :=
  { step : Segment; multisine : Segment; drop : Segment }.

Record Experiment : Type :=
  { __version : string;
    __dt : F64.float;
    __duration : F64.float;
    __frequencies : ndarray;
    __amplitudes : ndarray;
    __phases : ndarray;
    __rest_level : F64.float;
    __step_level : F64.float;
    __step_delay : F64.float;
    __drop_delay : F64.float;
    __trace_count : Z;
    __trace_pause : F64.float;
    __trace_alternance : Z;
    __traces : list Trace }.

Definition load_segment (s : Json.segment) : Segment :=
  {| time := numpy_array (Json.time s);
     stimulation := numpy_array (Json.stimulation s);
     response := numpy_array (Json.response s) |}.

Definition load_trace (tr : Json.trace) : Trace :=
  {| step := load_segment (Json.step tr);
     multisine := load_segment (Json.multisine tr);
     drop := load_segment (Json.drop tr) |}.

(** The loop of the constructor: [for i in range(0, len(j['traces']))],
    appending the trace built from [j['traces'][i]]. *)
Fixpoint load_traces (j_traces : list Json.trace) (range : list nat)
    (traces : list Trace) : result (list Trace) :=
  match range with
  | [] => Ok traces
  | i :: range' =>
      match getitem j_traces (Z.of_nat i) with
      | Ok tr => load_traces j_traces range' (traces ++ [load_trace tr])
      | Raise e => Raise e
      end
  end.

(** [Experiment(filename)], from the decoded record [j] on. *)
Definition __init__ (j : Json.record) : result Experiment :=
  match load_traces (Json.traces j) (seq 0 (length (Json.traces j))) [] with
  | Ok traces =>
      Ok {| __version := Json.version j;
            __dt := Json.dt j;
            __duration := Json.duration j;
            __frequencies := numpy_array (Json.frequencies j);
            __amplitudes := numpy_array (Json.amplitudes j);
            __phases := numpy_array (Json.phases j);
            __rest_level := Json.rest_level j;
            __step_level := Json.step_level j;
            __step_delay := Json.step_delay j;
            __drop_delay := Json.drop_delay j;
            __trace_count := Json.trace_count j;
            __trace_pause := Json.trace_pause j;
            __trace_alternance := Json.trace_alternance j;
            __traces := traces |}
  | Raise e => Raise e
  end.

Definition version (self : Experiment) : string := __version self.

(** [len(self.__traces)] *)
Definition count (self : Experiment) : Z :=
  Z.of_nat (length (__traces self)).

(** [index < 0 or index >= len(self.__traces)] *)
Definition invalid_index (self : Experiment) (index : Z) : bool :=
  (index <? 0) || (index >=? Z.of_nat (length (__traces self))).

(** [IndexError('Invalid measurement index (%d)' % index)] *)
Definition index_error (index : Z) : exn :=
  IndexError ("Invalid measurement index (" ++ format_d index ++ ")")%string.

Definition get_measurement (self : Experiment) (index : Z)
    : result (Measurement ndarray) :=
  if invalid_index self index then Raise (index_error index)
  else
    match getitem (__traces self) index with
    | Ok tr =>
        Ok {| dt := __dt self;
              duration := __duration self;
              frequencies := __frequencies self;
              t := time (multisine tr);
              x := stimulation (multisine tr);
              y := response (multisine tr) |}
    | Raise e => Raise e
    end.

Local Open Scope monad_scope.

(** The three accumulators [t], [x], [y] of [average]. *)
Definition accumulators : Type := (value * value * value)%type.

(** One turn of the loop of [average], for [i] in [range(0, n)]: the index
    is read and tested, the measurement fetched (which tests the index once
    more), and its three arrays, divided by [n], added to the accumulators. *)
Definition average_step (self : Experiment) (indices : list Z) (n : nat)
    (i : nat) (acc : accumulators) : M accumulators :=
  let '(t0, x0, y0) := acc in
  index <- lift (getitem indices (Z.of_nat i)) ;;
  tell (Validate index) ;;;
  if invalid_index self index then raise (index_error index)
  else
    m <- lift (get_measurement self index) ;;
    tell (Accumulate index) ;;;
    t1 <- lift (value_add t0 (array_div (t m) n)) ;;
    x1 <- lift (value_add x0 (array_div (x m) n)) ;;
    y1 <- lift (value_add y0 (array_div (y m) n)) ;;
    ret (t1, x1, y1).

Fixpoint average_loop (self : Experiment) (indices : list Z) (n : nat)
    (range : list nat) (acc : accumulators) : M accumulators :=
  match range with
  | [] => ret acc
  | i :: range' =>
      acc' <- average_step self indices n i acc ;;
      average_loop self indices n range' acc'
  end.

Definition average (self : Experiment) (indices : list Z)
    : M (Measurement value) :=
  if __trace_alternance self <? 0 then
    raise (NotImplementedError
             "Averaging with trace alternance is not yet implemented")
  else
    let n := length indices in
    acc <- average_loop self indices n (seq 0 n) (PyInt 0, PyInt 0, PyInt 0) ;;
    let '(t, x, y) := acc in
    ret {| dt := __dt self;
           duration := __duration self;
           frequencies := __frequencies self;
           t := t;
           x := x;
           y := y |}.

Local Close Scope monad_scope.

(** ** The constructor in closed form *)

(** The experiment that [__init__] builds from [j]. *)
Definition loaded (j : Json.record) : Experiment :=
  {| __version := Json.version j;
     __dt := Json.dt j;
     __duration := Json.duration j;
     __frequencies := numpy_array (Json.frequencies j);
     __amplitudes := numpy_array (Json.amplitudes j);
     __phases := numpy_array (Json.phases j);
     __rest_level := Json.rest_level j;
     __step_level := Json.step_level j;
     __step_delay := Json.step_delay j;
     __drop_delay := Json.drop_delay j;
     __trace_count := Json.trace_count j;
     __trace_pause := Json.trace_pause j;
     __trace_alternance := Json.trace_alternance j;
     __traces := map load_trace (Json.traces j) |}.

(** ** Rendering of an index in a message *)

(** Reads back a decimal numeral written by ['%d']. *)
Definition parse_d (s : string) : option Z :=
  option_map Z.of_int (NilZero.int_of_string s).

(** ** The loop of [average], index by index *)

Local Open Scope monad_scope.

(** The body of the loop once [index = indices[i]] is read. *)
Definition visit (self : Experiment) (n : nat) (index : Z)
    (acc : accumulators) : M accumulators :=
  let '(t0, x0, y0) := acc in
  tell (Validate index) ;;;
  if invalid_index self index then raise (index_error index)
  else
    m <- lift (get_measurement self index) ;;
    tell (Accumulate index) ;;;
    t1 <- lift (value_add t0 (array_div (t m) n)) ;;
    x1 <- lift (value_add x0 (array_div (x m) n)) ;;
    y1 <- lift (value_add y0 (array_div (y m) n)) ;;
    ret (t1, x1, y1).

Fixpoint visit_all (self : Experiment) (n : nat) (indices : list Z)
    (acc : accumulators) : M accumulators :=
  match indices with
  | [] => ret acc
  | index :: rest =>
      acc' <- visit self n index acc ;;
      visit_all self n rest acc'
  end.

Local Close Scope monad_scope.

(** The events of a run over valid indices. *)
Definition visited (indices : list Z) : list event :=
  flat_map (fun index => [Validate index; Accumulate index]) indices.

(** The running sum of one accumulator over the selected arrays. *)
Fixpoint sum_terms (n : nat) (acc : value) (arrays : list ndarray)
    : result value :=
  match arrays with
  | [] => Ok acc
  | a :: rest =>
      match value_add acc (array_div a n) with
      | Ok acc' => sum_terms n acc' rest
      | Raise e => Raise e
      end
  end.

(** [ms] are the measurements at [indices]. *)
Definition measured (self : Experiment) (indices : list Z)
    (ms : list (Measurement ndarray)) : Prop :=
  Forall2 (fun index m => get_measurement self index = Ok m) indices ms.

(** The arrays of [ms] have the lengths [Lt], [Lx], [Ly]. *)
Definition aligned (Lt Lx Ly : nat) (ms : list (Measurement ndarray)) : Prop :=
  Forall (fun m => length (t m) = Lt /\ length (x m) = Lx /\ length (y m) = Ly)
         ms.

(** Every sample of the array is a value of the binary64 format. *)
Definition binary64 (a : ndarray) : Prop :=
  Forall (fun v => F64.valid v = true) a.

(** The shape of an accumulator: none for a Python [int], the length for an
    array. *)
Definition shape (v : value) : option nat :=
  match v with
  | PyInt _ => None
  | NdArray a => Some (length a)
  end.

(** ** The elementwise mean *)

(** One term of a mean over [n] arrays: the sample [v] with weight [1/n],
    added to the sum [s] so far. *)
Definition add_term (n : nat) (s v : F64.float) : F64.float :=
  F64.add s (F64.div v (F64.of_Z (Z.of_nat n))).

(** The samples at position [k] of each array, in order. *)
Definition column (k : nat) (arrays : list ndarray) : list F64.float :=
  map (fun a => nth k a F64.zero) arrays.

(** The mean as the specification words it: at each of the [L] positions,
    the sum over the selected arrays of the sample there divided by the
    number of arrays, the terms taken in the order of the selection. *)
Definition elementwise_mean (arrays : list ndarray) (L : nat) : ndarray :=
  map (fun k => fold_left (add_term (length arrays)) (column k arrays) F64.zero)
      (seq 0 L).

(** ** Sample records *)

Module Scenario.
Definition f (z : Z) : F64.float := F64.of_Z z.

(** [k / 10], correctly rounded, as the decimal literal decodes. *)
Definition tenths (k : Z) : F64.float := F64.div (F64.of_Z k) (F64.of_Z 10).

Definition seg (ts xs rs : list F64.float) : Json.segment :=
  {| Json.time := ts; Json.stimulation := xs; Json.response := rs |}.

Definition tr (ts xs rs : list F64.float) : Json.trace :=
  {| Json.step := seg [] [] [];
     Json.multisine := seg ts xs rs;
     Json.drop := seg [] [] [] |}.

Definition j (alternance : Z) (trs : list Json.trace) : Json.record :=
  {| Json.version := "1.0";
     Json.dt := tenths 1;
     Json.duration := f 3;
     Json.frequencies := [f 1; f 2];
     Json.amplitudes := [f 1; f 1];
     Json.phases := [f 0; f 0];
     Json.rest_level := f 0;
     Json.step_level := f 1;
     Json.step_delay := f 1;
     Json.drop_delay := f 1;
     Json.trace_count := Z.of_nat (length trs);
     Json.trace_pause := f 1;
     Json.trace_alternance := alternance;
     Json.traces := trs |}.

Definition times : list F64.float := [f 0; tenths 1; tenths 2].
Definition stimuli : list F64.float := [tenths 5; f (-1); tenths 25].

(** Two traces with the same time and stimulation arrays and the
    responses [1,2,3] and [3,4,5]. *)
Definition pair (ts xs : list F64.float) : list Json.trace :=
  [tr ts xs [f 1; f 2; f 3]; tr ts xs [f 3; f 4; f 5]].

(** The record of such a pair, no alternance. *)
Definition matching (ts xs : list F64.float) : Json.record := j 0 (pair ts xs).

Definition two : Json.record := matching times stimuli.

(** The same traces under an alternance mode that is not supported. *)
Definition alternating : Json.record := j (-1) (pair times stimuli).

(** The measurement of a trace of such a record. *)
Definition measurement_of (ts xs rs : list F64.float) : Measurement ndarray :=
  {| dt := tenths 1;
     duration := f 3;
     frequencies := [f 1; f 2];
     t := ts;
     x := xs;
     y := rs |}.

(** The measurement of a trace of [two] whose response is [rs]. *)
Definition m (rs : list F64.float) : Measurement ndarray :=
  measurement_of times stimuli rs.

(** Two traces whose arrays have two and three samples. *)
Definition ragged : Json.record :=
  j 0 [tr [f 0; f 1] [f 1; f 1] [f 1; f 2];
       tr [f 0; f 1; f 2] [f 1; f 1; f 1] [f 3; f 4; f 5]].

(** [3 * 2^53]: a third of it is [2^53], where doubles are two apart. *)
Definition big : Z := 27021597764222976.

(** Three one-sample traces whose responses are [big], [3] and [-big]. *)
Definition rounding : Json.record :=
  j 0 [tr [f 0] [f 1] [f big]; tr [f 0] [f 1] [f 3];
       tr [f 0] [f 1] [f (- big)]].
End Scenario.

(** ** Further sample records *)

(** An accumulator that holds an array. *)
Definition is_array (v : value) : Prop :=
  match v with
  | NdArray _ => True
  | PyInt _ => False
  end.

Module Cases.
(** The traces of [Scenario.two] with step and drop segments filled in, under
    other amplitudes, phases, levels, delays, pause and version, and a
    [trace_count] that miscounts the traces. *)
Definition other : Json.record :=
  {| Json.version := "2.1";
     Json.dt := Scenario.tenths 1;
     Json.duration := Scenario.f 3;
     Json.frequencies := [Scenario.f 1; Scenario.f 2];
     Json.amplitudes := [Scenario.f 7];
     Json.phases := [];
     Json.rest_level := Scenario.f 4;
     Json.step_level := Scenario.f 5;
     Json.step_delay := Scenario.f 6;
     Json.drop_delay := Scenario.f 7;
     Json.trace_count := 5;
     Json.trace_pause := Scenario.f 8;
     Json.trace_alternance := 0;
     Json.traces :=
       [ {| Json.step := Scenario.seg [Scenario.f 1] [Scenario.f 2] [];
            Json.multisine :=
              Scenario.seg Scenario.times Scenario.stimuli
                           (map Scenario.f [1; 2; 3]);
            Json.drop := Scenario.seg [] [Scenario.f 9] [] |};
         {| Json.step := Scenario.seg [] [] [Scenario.f 3];
            Json.multisine :=
              Scenario.seg Scenario.times Scenario.stimuli
                           (map Scenario.f [3; 4; 5]);
            Json.drop := Scenario.seg [Scenario.f 4] [] [] |} ] |}.

(** A trace of three samples and a trace of one sample. *)
Definition broadcast : Json.record :=
  Scenario.j 0
    [Scenario.tr Scenario.times Scenario.stimuli (map Scenario.f [1; 2; 3]);
     Scenario.tr [Scenario.f 5] [Scenario.f 6] [Scenario.f 7]].

(** A record without traces. *)
Definition empty : Json.record := Scenario.j 0 [].
End Cases.

(** ** Facts of binary64 arithmetic *)

Lemma div_eucl_mul (q b : Z) : 0 < b -> Z.div_eucl (q * b) b = (q, 0).
Proof.
  intros Hb.
  pose proof (Z.div_mul q b) as Hq. pose proof (Z.mod_mul q b) as Hr.
  unfold Z.div, Z.modulo in Hq, Hr.
  destruct (Z.div_eucl (q * b) b) as [q' r'].
  f_equal; [apply Hq | apply Hr]; lia.
Qed.

Lemma bounded_inv (m : positive) (e : Z) :
  bounded 53 1024 m e = true ->
  fexp 53 1024 (Zpos (digits2_pos m) + e) = e /\ e <= 971 /\ -1074 <= e /\
  (e = -1074 /\ Zpos (digits2_pos m) <= 53 \/
   -1074 < e /\ Zpos (digits2_pos m) = 53).
Proof.
  unfold bounded, canonical_mantissa. intros H.
  apply andb_true_iff in H as [Hc He].
  apply Z.eqb_eq in Hc. apply Z.leb_le in He.
  split; [exact Hc|].
  unfold fexp, emin in Hc. lia.
Qed.

Lemma shr_fexp_canonical (m : positive) (e : Z) :
  fexp 53 1024 (Zpos (digits2_pos m) + e) = e ->
  shr_fexp 53 1024 (Zpos m) e loc_Exact =
  ({| shr_m := Zpos m; shr_r := false; shr_s := false |}, e).
Proof.
  intros H. unfold shr_fexp.
  change (Zdigits2 (Zpos m)) with (Zpos (digits2_pos m)).
  rewrite H, Z.sub_diag. reflexivity.
Qed.

Lemma shr_fexp_double (m : positive) (e : Z) :
  fexp 53 1024 (Zpos (digits2_pos m) + e) = e ->
  shr_fexp 53 1024 (Zpos m~0) (e - 1) loc_Exact =
  ({| shr_m := Zpos m; shr_r := false; shr_s := false |}, e).
Proof.
  intros H. unfold shr_fexp.
  change (Zdigits2 (Zpos m~0)) with (Zpos (Pos.succ (digits2_pos m))).
  rewrite Pos2Z.inj_succ.
  replace (Z.succ (Zpos (digits2_pos m)) + (e - 1))
    with (Zpos (digits2_pos m) + e) by lia.
  rewrite H.
  replace (e - (e - 1)) with 1 by lia.
  unfold shr. cbn [iter_pos shr_record_of_loc shr_1 orb].
  f_equal. lia.
Qed.

(** Rounding leaves a value of the format as it is. *)
Lemma round_canonical (s : bool) (m : positive) (e : Z) :
  bounded 53 1024 m e = true ->
  binary_round_aux 53 1024 s (Zpos m) e loc_Exact = S754_finite s m e.
Proof.
  intros Hb. destruct (bounded_inv m e Hb) as (Hc & He & _).
  unfold binary_round_aux.
  rewrite (shr_fexp_canonical m e Hc).
  cbn [shr_m loc_of_shr_record round_nearest_even].
  rewrite (shr_fexp_canonical m e Hc).
  cbn [shr_m].
  replace (e <=? 1024 - 53) with true by (symmetry; apply Z.leb_le; lia).
  reflexivity.
Qed.

Lemma round_double (s : bool) (m : positive) (e : Z) :
  bounded 53 1024 m e = true ->
  binary_round_aux 53 1024 s (Zpos m~0) (e - 1) loc_Exact = S754_finite s m e.
Proof.
  intros Hb. destruct (bounded_inv m e Hb) as (Hc & He & _).
  unfold binary_round_aux.
  rewrite (shr_fexp_double m e Hc).
  cbn [shr_m loc_of_shr_record round_nearest_even].
  rewrite (shr_fexp_canonical m e Hc).
  cbn [shr_m].
  replace (e <=? 1024 - 53) with true by (symmetry; apply Z.leb_le; lia).
  reflexivity.
Qed.

(** The quotient of a mantissa by the mantissa [2^52] of [1.0]. *)
Lemma div_core_one (m : positive) (e : Z) :
  bounded 53 1024 m e = true ->
  SFdiv_core_binary 53 1024 (Zpos m) e 4503599627370496 (-52) =
  if e =? -1074 then (Zpos m, e, loc_Exact)
  else (Zpos m~0, e - 1, loc_Exact).
Proof.
  intros Hb. destruct (bounded_inv m e Hb) as (_ & He & Hl & Hd).
  unfold SFdiv_core_binary.
  change (Zdigits2 (Zpos m)) with (Zpos (digits2_pos m)).
  change (Zdigits2 4503599627370496) with 53.
  unfold fexp, emin.
  destruct (Z.eqb_spec e (-1074)) as [E|E].
  - match goal with |- context [Z.min ?a ?b] =>
      replace (Z.min a b) with e by lia end.
    replace (e - -52 - e) with 52 by lia.
    rewrite Z.shiftl_mul_pow2 by lia.
    change (2 ^ 52) with 4503599627370496.
    rewrite div_eucl_mul by lia. reflexivity.
  - match goal with |- context [Z.min ?a ?b] =>
      replace (Z.min a b) with (e - 1) by lia end.
    replace (e - -52 - (e - 1)) with 53 by lia.
    rewrite Z.shiftl_mul_pow2 by lia.
    replace (Zpos m * 2 ^ 53) with (Zpos m~0 * 4503599627370496) by lia.
    rewrite div_eucl_mul by lia. reflexivity.
Qed.

(** [v / 1.0] is [v], for every binary64 value. *)
Lemma div_one (v : F64.float) :
  F64.valid v = true -> F64.div v (F64.of_Z 1) = v.
Proof.
  unfold F64.valid, F64.div.
  change (F64.of_Z 1) with (S754_finite false 4503599627370496 (-52)).
  destruct v as [s|s| |s m e]; intros Hv; cbn [valid_binary] in Hv.
  - destruct s; reflexivity.
  - destruct s; reflexivity.
  - reflexivity.
  - unfold SFdiv, F64.prec, F64.emax. rewrite (div_core_one m e Hv).
    rewrite xorb_false_r.
    destruct (e =? -1074).
    + apply round_canonical; exact Hv.
    + apply round_double; exact Hv.
Qed.

(** [0.0 + v] is [v], but for the sign of a zero. *)
Lemma add_zero_same (v : F64.float) : F64.same (F64.add F64.zero v) v.
Proof.
  destruct v as [[|]|[|]| |s m e];
    try (left; reflexivity); right; split; reflexivity.
Qed.

Lemma add_comm (u v : F64.float) : F64.add u v = F64.add v u.
Proof.
  destruct u as [[|]|[|]| |s m e]; destruct v as [[|]|[|]| |s' m' e'];
    try reflexivity.
  unfold F64.add, SFadd. rewrite Z.min_comm.
  rewrite (Z.add_comm (cond_Zopp s _)). reflexivity.
Qed.

(** Two terms summed from [0.0] in either order. *)
Lemma add_zero_swap (u v : F64.float) :
  F64.add (F64.add F64.zero u) v = F64.add (F64.add F64.zero v) u.
Proof.
  destruct u as [[|]|[|]| |s m e]; destruct v as [[|]|[|]| |s' m' e'];
    try reflexivity.
  change (F64.add F64.zero (S754_finite s m e)) with (S754_finite s m e).
  change (F64.add F64.zero (S754_finite s' m' e')) with (S754_finite s' m' e').
  apply add_comm.
Qed.

Lemma bounded_pred (m : positive) (e : Z) :
  bounded 53 1024 m e = true -> -1074 < e ->
  bounded 53 1024 m (e - 1) = true.
Proof.
  intros Hb Hl. destruct (bounded_inv m e Hb) as (_ & He & _ & Hd).
  unfold bounded, canonical_mantissa, fexp, emin.
  apply andb_true_iff. split; [apply Z.eqb_eq | apply Z.leb_le]; lia.
Qed.

Lemma div_core_two (m : positive) (e : Z) :
  bounded 53 1024 m e = true -> -1074 < e ->
  SFdiv_core_binary 53 1024 (Zpos m) e 4503599627370496 (-51) =
  if e =? -1073 then (Zpos m, e - 1, loc_Exact)
  else (Zpos m~0, e - 1 - 1, loc_Exact).
Proof.
  intros Hb Hl. destruct (bounded_inv m e Hb) as (_ & He & _ & Hd).
  unfold SFdiv_core_binary.
  change (Zdigits2 (Zpos m)) with (Zpos (digits2_pos m)).
  change (Zdigits2 4503599627370496) with 53.
  unfold fexp, emin.
  destruct (Z.eqb_spec e (-1073)) as [E|E].
  - match goal with |- context [Z.min ?a ?b] =>
      replace (Z.min a b) with (e - 1) by lia end.
    replace (e - -51 - (e - 1)) with 52 by lia.
    rewrite Z.shiftl_mul_pow2 by lia.
    change (2 ^ 52) with 4503599627370496.
    rewrite div_eucl_mul by lia. reflexivity.
  - match goal with |- context [Z.min ?a ?b] =>
      replace (Z.min a b) with (e - 1 - 1) by lia end.
    replace (e - -51 - (e - 1 - 1)) with 53 by lia.
    rewrite Z.shiftl_mul_pow2 by lia.
    replace (Zpos m * 2 ^ 53) with (Zpos m~0 * 4503599627370496) by lia.
    rewrite div_eucl_mul by lia. reflexivity.
Qed.

(** Halving a value above the smallest exponent lowers its exponent. *)
Lemma div_two_finite (s : bool) (m : positive) (e : Z) :
  bounded 53 1024 m e = true -> -1074 < e ->
  F64.div (S754_finite s m e) (F64.of_Z 2) = S754_finite s m (e - 1).
Proof.
  intros Hb Hl. unfold F64.div.
  change (F64.of_Z 2) with (S754_finite false 4503599627370496 (-51)).
  unfold SFdiv, F64.prec, F64.emax.
  rewrite (div_core_two m e Hb Hl), xorb_false_r.
  pose proof (bounded_pred m e Hb Hl) as Hp.
  destruct (e =? -1073).
  - apply round_canonical; exact Hp.
  - apply round_double; exact Hp.
Qed.

(** Doubling: the sum of a value with itself raises its exponent. *)
Lemma add_diag_finite (s : bool) (m : positive) (e : Z) :
  bounded 53 1024 m e = true ->
  F64.add (S754_finite s m (e - 1)) (S754_finite s m (e - 1)) =
  S754_finite s m e.
Proof.
  intros Hb. destruct (bounded_inv m e Hb) as (Hc & _).
  unfold F64.add, SFadd, F64.prec, F64.emax.
  rewrite Z.min_id. unfold shl_align at 1 2. rewrite Z.sub_diag. cbn [fst].
  assert (Hr : binary_round 53 1024 s m~0 (e - 1) = S754_finite s m e).
  { unfold binary_round, shl_align.
    change (digits2_pos m~0) with (Pos.succ (digits2_pos m)).
    rewrite Pos2Z.inj_succ.
    replace (Z.succ (Zpos (digits2_pos m)) + (e - 1))
      with (Zpos (digits2_pos m) + e) by lia.
    rewrite Hc. replace (e - (e - 1)) with 1 by lia.
    apply round_double. exact Hb. }
  destruct s; cbn [cond_Zopp Z.opp Z.add binary_normalize];
    rewrite Pos.add_diag; exact Hr.
Qed.

(** The mean of a value with itself, as [average] sums it. *)
Lemma mean_of_twice (v : F64.float) :
  F64.valid v = true -> F64.halves_exactly v = true ->
  add_term 2 (add_term 2 F64.zero v) v = v.
Proof.
  unfold add_term. change (F64.of_Z (Z.of_nat 2)) with (F64.of_Z 2).
  destruct v as [[|]|[|]| |s m e]; intros Hv Hh;
    try reflexivity; try discriminate Hh.
  cbn [F64.valid valid_binary] in Hv. apply Z.ltb_lt in Hh.
  rewrite (div_two_finite s m e Hv Hh).
  change (F64.add F64.zero (S754_finite s m (e - 1)))
    with (S754_finite s m (e - 1)).
  apply add_diag_finite. exact Hv.
Qed.

(** ** Python list indexing and the [range] loops *)

Lemma getitem_of_nat {A} (l : list A) (k : nat) :
  getitem l (Z.of_nat k) =
  match nth_error l k with
  | Some a => Ok a
  | None => Raise (IndexError "list index out of range")
  end.
Proof.
  unfold getitem.
  assert (H : (Z.of_nat k <? 0) = false) by (apply Z.ltb_ge; lia).
  rewrite H, H, Nat2Z.id. reflexivity.
Qed.

Lemma getitem_middle {A} (pre : list A) (a : A) (rest : list A) :
  getitem (pre ++ a :: rest) (Z.of_nat (length pre)) = Ok a.
Proof.
  rewrite getitem_of_nat, nth_error_app2 by lia.
  rewrite Nat.sub_diag. reflexivity.
Qed.

Lemma getitem_in_range {A} (l : list A) (index : Z) :
  0 <= index < Z.of_nat (length l) ->
  exists a, nth_error l (Z.to_nat index) = Some a /\ getitem l index = Ok a.
Proof.
  intros H.
  destruct (nth_error l (Z.to_nat index)) as [a|] eqn:E.
  - exists a. split; [reflexivity|].
    rewrite <- (Z2Nat.id index) by lia.
    rewrite getitem_of_nat, E. reflexivity.
  - apply nth_error_None in E. lia.
Qed.

Lemma load_traces_seq (rest pre : list Json.trace) (acc : list Trace) :
  load_traces (pre ++ rest) (seq (length pre) (length rest)) acc =
  Ok (acc ++ map load_trace rest).
Proof.
  revert pre acc.
  induction rest as [|a rest IH]; intros pre acc; simpl.
  - rewrite app_nil_r. reflexivity.
  - rewrite getitem_middle.
    replace (pre ++ a :: rest) with ((pre ++ [a]) ++ rest)
      by (rewrite <- app_assoc; reflexivity).
    replace (S (length pre)) with (length (pre ++ [a]))
      by (rewrite length_app; simpl; lia).
    rewrite IH, <- app_assoc. reflexivity.
Qed.

Lemma init_loaded (j : Json.record) : __init__ j = Ok (loaded j).
Proof.
  unfold __init__.
  pose proof (load_traces_seq (Json.traces j) [] []) as H.
  simpl in H. rewrite H. reflexivity.
Qed.

(** ** Rendering of an index in a message *)

Lemma parse_format_d (index : Z) : parse_d (format_d index) = Some index.
Proof.
  unfold parse_d, format_d.
  rewrite NilZero.isi.
  - simpl. rewrite DecimalZ.of_to. reflexivity.
  - destruct index; simpl; try discriminate.
    intros [= H]. exact (DecimalPos.Unsigned.to_uint_nonnil _ H).
  - destruct index; simpl; try discriminate.
    intros [= H]. exact (DecimalPos.Unsigned.to_uint_nonnil _ H).
Qed.

Lemma format_d_inj (i j : Z) : format_d i = format_d j -> i = j.
Proof.
  intros H. apply (f_equal parse_d) in H.
  rewrite !parse_format_d in H. congruence.
Qed.

(** ** [count] and [get_measurement] *)

Lemma invalid_index_true (self : Experiment) (index : Z) :
  invalid_index self index = true <-> index < 0 \/ index >= count self.
Proof.
  unfold invalid_index, count.
  rewrite orb_true_iff, Z.ltb_lt, Z.geb_le. lia.
Qed.

Lemma invalid_index_false (self : Experiment) (index : Z) :
  invalid_index self index = false <-> 0 <= index < count self.
Proof.
  rewrite <- not_true_iff_false, invalid_index_true. lia.
Qed.

Lemma get_measurement_valid (self : Experiment) (index : Z) :
  0 <= index < count self ->
  exists tr,
    nth_error (__traces self) (Z.to_nat index) = Some tr /\
    get_measurement self index =
    Ok {| dt := __dt self;
          duration := __duration self;
          frequencies := __frequencies self;
          t := time (multisine tr);
          x := stimulation (multisine tr);
          y := response (multisine tr) |}.
Proof.
  intros H. unfold get_measurement.
  apply invalid_index_false in H as Hv. rewrite Hv.
  destruct (getitem_in_range (__traces self) index H) as (tr & Hn & Hg).
  exists tr. rewrite Hg. split; [assumption | reflexivity].
Qed.

Lemma get_measurement_invalid (self : Experiment) (index : Z) :
  index < 0 \/ index >= count self ->
  get_measurement self index = Raise (index_error index).
Proof.
  intros H. unfold get_measurement.
  apply invalid_index_true in H. rewrite H. reflexivity.
Qed.

(** C8.  When the decoded record holds as many traces as its [trace_count]
    field says, the constructor succeeds and [count()] of the experiment it
    builds is the value of [trace_count]. *)
Theorem count_equals_trace_count (j : Json.record) :
  Z.of_nat (length (Json.traces j)) = Json.trace_count j ->
  exists self,
    __init__ j = Ok self /\
    count self = Json.trace_count j /\
    count self = __trace_count self.
Proof.
  intros H. exists (loaded j).
  split; [apply init_loaded|].
  unfold count. simpl. rewrite length_map. split; exact H.
Qed.

(** C7.  For [0 <= index < count()], [get_measurement(index)] returns the
    measurement whose [t], [x], [y] are, unchanged, the [time],
    [stimulation], [response] arrays of the multisine segment of the trace at
    [index], with [dt], [duration], [frequencies] of the experiment. *)
Theorem get_measurement_copy_through (self : Experiment) (index : Z) :
  0 <= index < count self ->
  exists tr m,
    nth_error (__traces self) (Z.to_nat index) = Some tr /\
    get_measurement self index = Ok m /\
    t m = time (multisine tr) /\
    x m = stimulation (multisine tr) /\
    y m = response (multisine tr) /\
    dt m = __dt self /\
    duration m = __duration self /\
    frequencies m = __frequencies self.
Proof.
  intros H.
  destruct (get_measurement_valid self index H) as (tr & Hn & Hg).
  exists tr. eexists. split; [exact Hn|]. split; [exact Hg|].
  simpl. repeat split; reflexivity.
Qed.

(** C6.  [get_measurement(index)] raises [IndexError] exactly when
    [index < 0] or [index >= count()]; the message is
    ["Invalid measurement index (%d)"] at that index, whose decimal
    numeral reads back as the index; so it is for [-1] and for [count()]. *)
Theorem get_measurement_index_error (self : Experiment) (index : Z) :
  ((exists msg, get_measurement self index = Raise (IndexError msg)) <->
   (index < 0 \/ index >= count self)) /\
  ((index < 0 \/ index >= count self) ->
   get_measurement self index =
   Raise (IndexError
            ("Invalid measurement index (" ++ format_d index ++ ")")%string)) /\
  parse_d (format_d index) = Some index /\
  get_measurement self (-1) = Raise (index_error (-1)) /\
  get_measurement self (count self) = Raise (index_error (count self)).
Proof.
  split; [split | split; [| split; [| split]]].
  - intros [msg Hm].
    destruct (Z_lt_ge_dec index 0) as [Hl|Hl]; [left; assumption|].
    destruct (Z_lt_ge_dec index (count self)) as [Hc|Hc]; [|right; assumption].
    destruct (get_measurement_valid self index (conj (Z.ge_le _ _ Hl) Hc))
      as (tr & _ & Hg).
    rewrite Hg in Hm. discriminate.
  - intros H. eexists. apply get_measurement_invalid. assumption.
  - apply get_measurement_invalid.
  - apply parse_format_d.
  - apply get_measurement_invalid. lia.
  - apply get_measurement_invalid. lia.
Qed.

(** ** The loop of [average], index by index *)

Lemma average_step_visit (self : Experiment) (pre : list Z) (index : Z)
    (rest : list Z) (n : nat) (acc : accumulators) (log : list event) :
  average_step self (pre ++ index :: rest) n (length pre) acc log =
  visit self n index acc log.
Proof.
  unfold average_step, visit. destruct acc as [[t0 x0] y0].
  unfold bind at 1, lift at 1. rewrite getitem_middle. reflexivity.
Qed.

Lemma average_loop_seq (self : Experiment) (n : nat) (rest pre : list Z)
    (acc : accumulators) (log : list event) :
  average_loop self (pre ++ rest) n (seq (length pre) (length rest)) acc log =
  visit_all self n rest acc log.
Proof.
  revert pre acc log.
  induction rest as [|index rest IH]; intros pre acc log; simpl.
  - reflexivity.
  - unfold bind. rewrite average_step_visit.
    destruct (visit self n index acc log) as [[acc'|e] log']; [|reflexivity].
    replace (pre ++ index :: rest) with ((pre ++ [index]) ++ rest)
      by (rewrite <- app_assoc; reflexivity).
    replace (S (length pre)) with (length (pre ++ [index]))
      by (rewrite length_app; simpl; lia).
    apply IH.
Qed.

Lemma average_unfold (self : Experiment) (indices : list Z) :
  0 <= __trace_alternance self ->
  run (average self indices) =
  match visit_all self (length indices) indices (PyInt 0, PyInt 0, PyInt 0) []
  with
  | (Ok (t1, x1, y1), log) =>
      (Ok {| dt := __dt self;
             duration := __duration self;
             frequencies := __frequencies self;
             t := t1; x := x1; y := y1 |}, log)
  | (Raise e, log) => (Raise e, log)
  end.
Proof.
  intros Ha. unfold run, average.
  assert (H : (__trace_alternance self <? 0) = false) by (apply Z.ltb_ge; lia).
  rewrite H. unfold bind.
  pose proof (average_loop_seq self (length indices) indices []
                (PyInt 0, PyInt 0, PyInt 0) []) as E.
  simpl in E. rewrite E.
  destruct (visit_all _ _ _ _ _) as [[[[t1 x1] y1]|e] log]; reflexivity.
Qed.

Lemma average_negative (self : Experiment) (indices : list Z) :
  __trace_alternance self < 0 ->
  run (average self indices) =
  (Raise (NotImplementedError
            "Averaging with trace alternance is not yet implemented"), []).
Proof.
  intros Ha. unfold run, average.
  apply Z.ltb_lt in Ha. rewrite Ha. reflexivity.
Qed.

Lemma visit_valid (self : Experiment) (n : nat) (index : Z)
    (m : Measurement ndarray) (t0 x0 y0 t1 x1 y1 : value) (log : list event) :
  get_measurement self index = Ok m ->
  value_add t0 (array_div (t m) n) = Ok t1 ->
  value_add x0 (array_div (x m) n) = Ok x1 ->
  value_add y0 (array_div (y m) n) = Ok y1 ->
  visit self n index (t0, x0, y0) log =
  (Ok (t1, x1, y1), log ++ [Validate index; Accumulate index]).
Proof.
  intros Hm Ht Hx Hy. unfold visit, bind, tell, lift, ret.
  assert (Hv : invalid_index self index = false).
  { destruct (invalid_index self index) eqn:E; [|reflexivity].
    unfold get_measurement in Hm. rewrite E in Hm. discriminate. }
  rewrite Hv, Hm, Ht, Hx, Hy, <- app_assoc. reflexivity.
Qed.

Lemma visit_invalid (self : Experiment) (n : nat) (index : Z)
    (acc : accumulators) (log : list event) :
  invalid_index self index = true ->
  visit self n index acc log =
  (Raise (index_error index), log ++ [Validate index]).
Proof.
  intros Hv. unfold visit, bind, tell, raise.
  destruct acc as [[t0 x0] y0]. rewrite Hv. reflexivity.
Qed.

Lemma visit_all_valid (self : Experiment) (n : nat) (indices : list Z)
    (ms : list (Measurement ndarray)) :
  measured self indices ms ->
  forall (t0 x0 y0 t1 x1 y1 : value) (log : list event),
  sum_terms n t0 (map t ms) = Ok t1 ->
  sum_terms n x0 (map x ms) = Ok x1 ->
  sum_terms n y0 (map y ms) = Ok y1 ->
  visit_all self n indices (t0, x0, y0) log =
  (Ok (t1, x1, y1), log ++ visited indices).
Proof.
  induction 1 as [|index m indices ms Hm _ IH];
    intros t0 x0 y0 t1 x1 y1 log Ht Hx Hy;
    cbn [map sum_terms] in Ht, Hx, Hy; cbn [visit_all visited flat_map].
  - injection Ht as <-. injection Hx as <-. injection Hy as <-.
    rewrite app_nil_r. reflexivity.
  - destruct (value_add t0 _) as [t'|] eqn:Et; [|discriminate].
    destruct (value_add x0 _) as [x'|] eqn:Ex; [|discriminate].
    destruct (value_add y0 _) as [y'|] eqn:Ey; [|discriminate].
    unfold bind. rewrite (visit_valid self n index m _ _ _ _ _ _ log Hm Et Ex Ey).
    rewrite (IH _ _ _ _ _ _ _ Ht Hx Hy), <- app_assoc. reflexivity.
Qed.

Lemma visit_all_first_invalid (self : Experiment) (n : nat)
    (good : list Z) (bad : Z) (rest : list Z)
    (ms : list (Measurement ndarray))
    (t0 x0 y0 t1 x1 y1 : value) (log : list event) :
  measured self good ms ->
  sum_terms n t0 (map t ms) = Ok t1 ->
  sum_terms n x0 (map x ms) = Ok x1 ->
  sum_terms n y0 (map y ms) = Ok y1 ->
  invalid_index self bad = true ->
  visit_all self n (good ++ bad :: rest) (t0, x0, y0) log =
  (Raise (index_error bad), log ++ visited good ++ [Validate bad]).
Proof.
  intros Hm. revert t0 x0 y0 log.
  induction Hm as [|index m good ms Hm _ IH];
    intros t0 x0 y0 log Ht Hx Hy Hb;
    cbn [map sum_terms] in Ht, Hx, Hy; cbn [visit_all visited flat_map app].
  - unfold bind. rewrite visit_invalid by assumption. reflexivity.
  - destruct (value_add t0 _) as [t'|] eqn:Et; [|discriminate].
    destruct (value_add x0 _) as [x'|] eqn:Ex; [|discriminate].
    destruct (value_add y0 _) as [y'|] eqn:Ey; [|discriminate].
    unfold bind. rewrite (visit_valid self n index m _ _ _ _ _ _ log Hm Et Ex Ey).
    rewrite (IH _ _ _ _ Ht Hx Hy Hb), <- app_assoc. reflexivity.
Qed.

(** ** The elementwise mean *)

Lemma nth_map_seq {A} (f : nat -> A) (L k : nat) (d : A) :
  (k < L)%nat -> nth k (map f (seq 0 L)) d = f k.
Proof.
  intros H.
  rewrite (nth_indep _ d (f O)) by (rewrite length_map, length_seq; exact H).
  rewrite map_nth, seq_nth by exact H. reflexivity.
Qed.

Lemma list_as_map_nth {A} (l : list A) (d : A) :
  l = map (fun k => nth k l d) (seq 0 (length l)).
Proof.
  apply (nth_ext _ _ d d).
  - rewrite length_map, length_seq. reflexivity.
  - intros k Hk. rewrite nth_map_seq by exact Hk. reflexivity.
Qed.

Lemma zip_add_length (a b : ndarray) :
  length a = length b -> length (zip_add a b) = length a.
Proof.
  revert b. induction a as [|u a IH]; intros [|v b] H; simpl in *;
    try discriminate; try reflexivity.
  f_equal. apply IH. congruence.
Qed.

Lemma zip_add_nth (a b : ndarray) (k : nat) (d : F64.float) :
  length a = length b -> (k < length a)%nat ->
  nth k (zip_add a b) d = F64.add (nth k a d) (nth k b d).
Proof.
  revert b k. induction a as [|u a IH]; intros [|v b] k H Hk; simpl in *;
    try discriminate; try lia.
  destruct k as [|k]; [reflexivity|].
  apply IH; [congruence | lia].
Qed.

Lemma array_add_same_length (a b : ndarray) :
  length a = length b -> array_add a b = Ok (zip_add a b).
Proof.
  intros H. unfold array_add. rewrite H, Nat.eqb_refl. reflexivity.
Qed.

Lemma array_div_length (a : ndarray) (n : nat) :
  length (array_div a n) = length a.
Proof. apply length_map. Qed.

Lemma array_div_nth (a : ndarray) (n k : nat) :
  (k < length a)%nat ->
  nth k (array_div a n) F64.zero =
  F64.div (nth k a F64.zero) (F64.of_Z (Z.of_nat n)).
Proof.
  intros H. unfold array_div.
  rewrite (nth_indep _ F64.zero
             (F64.div F64.zero (F64.of_Z (Z.of_nat n))))
    by (rewrite length_map; exact H).
  apply (map_nth (fun v => F64.div v (F64.of_Z (Z.of_nat n)))).
Qed.

Lemma sum_terms_array (n L : nat) (arrays : list ndarray) :
  Forall (fun a => length a = L) arrays ->
  forall b : ndarray,
  length b = L ->
  sum_terms n (NdArray b) arrays =
  Ok (NdArray
        (map (fun k => fold_left (add_term n) (column k arrays)
                                 (nth k b F64.zero))
             (seq 0 L))).
Proof.
  induction 1 as [|a arrays Ha _ IH]; intros b Hb; cbn [sum_terms].
  - simpl. rewrite <- Hb, <- list_as_map_nth. reflexivity.
  - unfold value_add.
    rewrite array_add_same_length
      by (rewrite array_div_length; congruence).
    rewrite IH
      by (rewrite zip_add_length; rewrite ?array_div_length; congruence).
    do 2 f_equal. apply map_ext_in. intros k Hk.
    apply in_seq in Hk. simpl.
    rewrite zip_add_nth, array_div_nth;
      rewrite ?array_div_length; try lia; try congruence.
    reflexivity.
Qed.

Lemma sum_terms_from_zero (n L : nat) (a : ndarray) (arrays : list ndarray) :
  Forall (fun a => length a = L) (a :: arrays) ->
  sum_terms n (PyInt 0) (a :: arrays) =
  Ok (NdArray
        (map (fun k => fold_left (add_term n) (column k (a :: arrays))
                                 F64.zero)
             (seq 0 L))).
Proof.
  intros H. inversion H as [|? ? Ha Hr]; subst.
  cbn [sum_terms value_add].
  rewrite (sum_terms_array n _ _ Hr)
    by (rewrite length_map; apply array_div_length).
  do 2 f_equal. apply map_ext_in. intros k Hk.
  apply in_seq in Hk. simpl.
  rewrite (nth_indep _ F64.zero
             (F64.add (F64.of_Z 0) F64.zero))
    by (rewrite length_map, array_div_length; lia).
  rewrite (map_nth (fun v => F64.add (F64.of_Z 0) v)).
  rewrite array_div_nth by lia. reflexivity.
Qed.

Lemma sum_terms_mean (L : nat) (arrays : list ndarray) :
  arrays <> [] ->
  Forall (fun a => length a = L) arrays ->
  sum_terms (length arrays) (PyInt 0) arrays =
  Ok (NdArray (elementwise_mean arrays L)).
Proof.
  intros Hne H. destruct arrays as [|a arrays]; [congruence|].
  apply sum_terms_from_zero. exact H.
Qed.

Lemma aligned_columns (Lt Lx Ly : nat) (ms : list (Measurement ndarray)) :
  aligned Lt Lx Ly ms ->
  Forall (fun a => length a = Lt) (map t ms) /\
  Forall (fun a => length a = Lx) (map x ms) /\
  Forall (fun a => length a = Ly) (map y ms).
Proof.
  unfold aligned. rewrite !Forall_map, !Forall_forall.
  intros H. repeat split; intros m Hm; apply (H m Hm).
Qed.

Lemma measured_valid (self : Experiment) (indices : list Z)
    (ms : list (Measurement ndarray)) :
  measured self indices ms ->
  Forall (fun index => 0 <= index < count self) indices.
Proof.
  induction 1 as [|index m indices ms Hm _ IH]; constructor; [|exact IH].
  apply invalid_index_false.
  destruct (invalid_index self index) eqn:E; [|reflexivity].
  unfold get_measurement in Hm. rewrite E in Hm. discriminate.
Qed.

Lemma valid_measured (self : Experiment) (indices : list Z) :
  Forall (fun index => 0 <= index < count self) indices ->
  exists ms, measured self indices ms.
Proof.
  induction 1 as [|index indices Hi _ [ms IH]].
  - exists []. constructor.
  - destruct (get_measurement_valid self index Hi) as (tr & _ & Hg).
    eexists (_ :: ms). constructor; [exact Hg | exact IH].
Qed.

Lemma average_aligned (self : Experiment) (indices : list Z)
    (ms : list (Measurement ndarray)) (Lt Lx Ly : nat) :
  0 <= __trace_alternance self ->
  indices <> [] ->
  measured self indices ms ->
  aligned Lt Lx Ly ms ->
  run (average self indices) =
  (Ok {| dt := __dt self;
         duration := __duration self;
         frequencies := __frequencies self;
         t := NdArray (elementwise_mean (map t ms) Lt);
         x := NdArray (elementwise_mean (map x ms) Lx);
         y := NdArray (elementwise_mean (map y ms) Ly) |},
   visited indices).
Proof.
  intros Ha Hne Hm Hal.
  rewrite average_unfold by exact Ha.
  assert (Hlen : length indices = length ms) by (apply (Forall2_length Hm)).
  assert (Hms : ms <> []).
  { intros ->. destruct indices; [congruence | discriminate]. }
  destruct (aligned_columns Lt Lx Ly ms Hal) as (Ht & Hx & Hy).
  rewrite (visit_all_valid self (length indices) indices ms Hm
             (PyInt 0) (PyInt 0) (PyInt 0)
             (NdArray (elementwise_mean (map t ms) Lt))
             (NdArray (elementwise_mean (map x ms) Lx))
             (NdArray (elementwise_mean (map y ms) Ly)) []).
  - reflexivity.
  - rewrite Hlen, <- (length_map t). apply sum_terms_mean; [|exact Ht].
    destruct ms; [congruence | discriminate].
  - rewrite Hlen, <- (length_map x). apply sum_terms_mean; [|exact Hx].
    destruct ms; [congruence | discriminate].
  - rewrite Hlen, <- (length_map y). apply sum_terms_mean; [|exact Hy].
    destruct ms; [congruence | discriminate].
Qed.


Lemma elementwise_mean_length (arrays : list ndarray) (L : nat) :
  length (elementwise_mean arrays L) = L.
Proof. unfold elementwise_mean. rewrite length_map, length_seq. reflexivity. Qed.

Lemma elementwise_mean_swap (a b : ndarray) (L : nat) :
  elementwise_mean [a; b] L = elementwise_mean [b; a] L.
Proof.
  unfold elementwise_mean. apply map_ext. intros k.
  simpl. unfold add_term. apply add_zero_swap.
Qed.

Lemma elementwise_mean_one (a : ndarray) :
  elementwise_mean [a] (length a) =
  map (fun v => F64.add F64.zero (F64.div v (F64.of_Z 1))) a.
Proof.
  transitivity
    (map (fun v => F64.add F64.zero (F64.div v (F64.of_Z 1)))
         (map (fun k => nth k a F64.zero) (seq 0 (length a)))).
  - rewrite map_map. reflexivity.
  - rewrite <- list_as_map_nth. reflexivity.
Qed.

Lemma elementwise_mean_single (a : ndarray) :
  binary64 a -> Forall2 F64.same (elementwise_mean [a] (length a)) a.
Proof.
  intros H. rewrite elementwise_mean_one.
  induction H as [|v a Hv _ IH]; simpl; constructor; [|exact IH].
  rewrite div_one by exact Hv. apply add_zero_same.
Qed.

Lemma elementwise_mean_twice (a : ndarray) :
  binary64 a ->
  Forall (fun v => F64.halves_exactly v = true) a ->
  elementwise_mean [a; a] (length a) = a.
Proof.
  intros Hv Hh.
  transitivity
    (map (fun v => add_term 2 (add_term 2 F64.zero v) v)
         (map (fun k => nth k a F64.zero) (seq 0 (length a)))).
  - rewrite map_map. reflexivity.
  - rewrite <- list_as_map_nth.
    induction Hv as [|v a Hv _ IH]; [reflexivity|].
    inversion Hh as [|? ? Hh1 Hh2]; subst. cbn [map].
    rewrite (mean_of_twice v Hv Hh1), (IH Hh2). reflexivity.
Qed.

(** ** Selections and their permutations *)

Lemma measured_functional (self : Experiment) (indices : list Z)
    (ms ms' : list (Measurement ndarray)) :
  measured self indices ms -> measured self indices ms' -> ms = ms'.
Proof.
  intros H. revert ms'.
  induction H as [|index m indices ms Hm _ IH]; intros ms' H';
    inversion H' as [|? m' ? ms0 Hm' Hr]; subst; [reflexivity|].
  f_equal; [congruence | apply IH; exact Hr].
Qed.

Lemma measured_permutation (self : Experiment) (indices indices' : list Z) :
  Permutation indices indices' ->
  forall ms, measured self indices ms ->
  exists ms', Permutation ms ms' /\ measured self indices' ms'.
Proof.
  unfold measured.
  induction 1 as [|i l l' _ IH|i i' l|l l' l'' _ IH1 _ IH2]; intros ms Hm.
  - inversion Hm; subst. exists []. split; constructor.
  - inversion Hm as [|? m ? ms0 Hi Hr]; subst.
    destruct (IH ms0 Hr) as (ms' & Hp & Hm').
    exists (m :: ms'). split; constructor; assumption.
  - inversion Hm as [|? m ? ms0 Hi Hr]; subst.
    inversion Hr as [|? m' ? ms1 Hi' Hr']; subst.
    exists (m' :: m :: ms1). split; [apply perm_swap|].
    repeat constructor; assumption.
  - destruct (IH1 ms Hm) as (ms' & Hp & Hm').
    destruct (IH2 ms' Hm') as (ms'' & Hp' & Hm'').
    exists ms''. split; [|exact Hm''].
    apply (Permutation_trans Hp Hp').
Qed.

Lemma permutation_small {A} (l l' : list A) :
  Permutation l l' -> (length l <= 2)%nat ->
  l' = l \/ exists a b, l = [a; b] /\ l' = [b; a].
Proof.
  intros Hp Hl.
  destruct l as [|a [|b [|c l]]]; simpl in Hl; try lia.
  - left. apply Permutation_nil. exact Hp.
  - left. apply Permutation_length_1_inv. exact Hp.
  - apply Permutation_length_2_inv in Hp as [->| ->].
    + left. reflexivity.
    + right. exists a, b. split; reflexivity.
Qed.

Lemma first_invalid_split (self : Experiment) (indices : list Z) :
  Exists (fun index => index < 0 \/ index >= count self) indices ->
  exists good bad rest ms,
    indices = good ++ bad :: rest /\
    measured self good ms /\
    (bad < 0 \/ bad >= count self).
Proof.
  induction indices as [|i indices IH]; intros H.
  - inversion H.
  - destruct (Z_lt_ge_dec i 0) as [Hl|Hl].
    { exists [], i, indices, []. repeat split; [constructor | lia]. }
    destruct (Z_lt_ge_dec i (count self)) as [Hc|Hc].
    2:{ exists [], i, indices, []. repeat split; [constructor | lia]. }
    inversion H as [? ? Hi|? ? Hr]; subst; [lia|].
    destruct (IH Hr) as (good & bad & rest & ms & -> & Hm & Hb).
    destruct (get_measurement_valid self i (conj (Z.ge_le _ _ Hl) Hc))
      as (tr & _ & Hg).
    eexists (i :: good), bad, rest, (_ :: ms).
    split; [reflexivity|]. split; [|exact Hb].
    constructor; [exact Hg | exact Hm].
Qed.

(** ** [average] *)

(** C1.  With a non-negative [trace_alternance], a non-empty list of valid
    indices and selected arrays of equal lengths, [average(indices)] returns
    the measurement whose [t], [x], [y] are the elementwise means of the
    selected measurements' [t], [x], [y] (each sample entering with weight
    [1/n], [n] the number of indices, the terms summed in binary64 in the
    order of the list), with [dt], [duration], [frequencies] of the
    experiment.  For the record of two traces with responses [1,2,3] and
    [3,4,5] and the same time and stimulation arrays, [average([0,1])] has
    the response [2,3,4] and the [t] of either trace: so it is for the
    times [0, 0.1, 0.2], and for every array of times that halve exactly. *)
Theorem average_is_elementwise_mean :
  (forall (self : Experiment) (indices : list Z)
          (ms : list (Measurement ndarray)) (Lt Lx Ly : nat),
      0 <= __trace_alternance self ->
      indices <> [] ->
      measured self indices ms ->
      aligned Lt Lx Ly ms ->
      outcome (average self indices) =
      Ok {| dt := __dt self;
            duration := __duration self;
            frequencies := __frequencies self;
            t := NdArray (elementwise_mean (map t ms) Lt);
            x := NdArray (elementwise_mean (map x ms) Lx);
            y := NdArray (elementwise_mean (map y ms) Ly) |}) /\
  (exists self m0 m1 a,
      __init__ Scenario.two = Ok self /\
      count self = 2 /\
      __trace_alternance self = 0 /\
      get_measurement self 0 = Ok m0 /\
      get_measurement self 1 = Ok m1 /\
      y m0 = map F64.of_Z [1; 2; 3] /\
      y m1 = map F64.of_Z [3; 4; 5] /\
      t m1 = t m0 /\
      x m1 = x m0 /\
      outcome (average self [0; 1]) = Ok a /\
      y a = NdArray (map F64.of_Z [2; 3; 4]) /\
      t a = NdArray (t m0) /\
      t a = NdArray (t m1)) /\
  (forall ts xs : list F64.float,
      binary64 ts ->
      Forall (fun v => F64.halves_exactly v = true) ts ->
      exists self m0 m1 a,
        __init__ (Scenario.matching ts xs) = Ok self /\
        count self = 2 /\
        __trace_alternance self = 0 /\
        get_measurement self 0 = Ok m0 /\
        get_measurement self 1 = Ok m1 /\
        y m0 = map F64.of_Z [1; 2; 3] /\
        y m1 = map F64.of_Z [3; 4; 5] /\
        t m0 = ts /\ t m1 = ts /\
        x m0 = xs /\ x m1 = xs /\
        outcome (average self [0; 1]) = Ok a /\
        y a = NdArray (map F64.of_Z [2; 3; 4]) /\
        t a = NdArray ts).
Proof.
  split; [|split].
  - intros self indices ms Lt Lx Ly Ha Hne Hm Hal.
    unfold outcome.
    rewrite (average_aligned self indices ms Lt Lx Ly Ha Hne Hm Hal).
    reflexivity.
  - exists (loaded Scenario.two).
    exists (Scenario.m (map F64.of_Z [1; 2; 3])).
    exists (Scenario.m (map F64.of_Z [3; 4; 5])).
    eexists.
    split; [apply init_loaded|].
    repeat split; vm_compute; reflexivity.
  - intros ts xs Hv Hh.
    set (self := loaded (Scenario.matching ts xs)).
    set (m0 := Scenario.measurement_of ts xs (map F64.of_Z [1; 2; 3])).
    set (m1 := Scenario.measurement_of ts xs (map F64.of_Z [3; 4; 5])).
    assert (Ha : 0 <= __trace_alternance self) by (simpl; lia).
    assert (Hne : [0; 1] <> @nil Z) by discriminate.
    assert (Hm : measured self [0; 1] [m0; m1]) by (repeat constructor).
    assert (Hal : aligned (length ts) (length xs) 3 [m0; m1])
      by (repeat constructor).
    exists self, m0, m1. eexists.
    split; [apply init_loaded|].
    do 10 (split; [reflexivity|]).
    unfold outcome.
    rewrite (average_aligned self [0; 1] [m0; m1] _ _ _ Ha Hne Hm Hal).
    split; [reflexivity|]. cbn [t y map m0 m1 Scenario.measurement_of].
    split; [vm_compute; reflexivity|].
    rewrite (elementwise_mean_twice ts Hv Hh). reflexivity.
Qed.

Lemma average_is_elementwise_mean_witness :
  (0 <= __trace_alternance (loaded Scenario.two) /\
   [0; 1] <> [] /\
   measured (loaded Scenario.two) [0; 1]
            [Scenario.m (map F64.of_Z [1; 2; 3]);
             Scenario.m (map F64.of_Z [3; 4; 5])] /\
   aligned 3 3 3 [Scenario.m (map F64.of_Z [1; 2; 3]);
                  Scenario.m (map F64.of_Z [3; 4; 5])] /\
   outcome (average (loaded Scenario.two) [0; 1]) =
   Ok {| dt := __dt (loaded Scenario.two);
         duration := __duration (loaded Scenario.two);
         frequencies := __frequencies (loaded Scenario.two);
         t := NdArray
                (elementwise_mean
                   (map t [Scenario.m (map F64.of_Z [1; 2; 3]);
                           Scenario.m (map F64.of_Z [3; 4; 5])]) 3);
         x := NdArray
                (elementwise_mean
                   (map x [Scenario.m (map F64.of_Z [1; 2; 3]);
                           Scenario.m (map F64.of_Z [3; 4; 5])]) 3);
         y := NdArray
                (elementwise_mean
                   (map y [Scenario.m (map F64.of_Z [1; 2; 3]);
                           Scenario.m (map F64.of_Z [3; 4; 5])]) 3) |}) /\
  (binary64 Scenario.times /\
   Forall (fun v => F64.halves_exactly v = true) Scenario.times /\
   exists self m0 m1 a,
     __init__ (Scenario.matching Scenario.times Scenario.stimuli) = Ok self /\
     count self = 2 /\
     __trace_alternance self = 0 /\
     get_measurement self 0 = Ok m0 /\
     get_measurement self 1 = Ok m1 /\
     y m0 = map F64.of_Z [1; 2; 3] /\
     y m1 = map F64.of_Z [3; 4; 5] /\
     t m0 = Scenario.times /\ t m1 = Scenario.times /\
     x m0 = Scenario.stimuli /\ x m1 = Scenario.stimuli /\
     outcome (average self [0; 1]) = Ok a /\
     y a = NdArray (map F64.of_Z [2; 3; 4]) /\
     t a = NdArray Scenario.times).
Proof.
  assert (H1 : 0 <= __trace_alternance (loaded Scenario.two))
    by (simpl; lia).
  assert (H2 : [0; 1] <> @nil Z) by discriminate.
  assert (H3 : measured (loaded Scenario.two) [0; 1]
                 [Scenario.m (map F64.of_Z [1; 2; 3]);
                  Scenario.m (map F64.of_Z [3; 4; 5])])
    by (repeat constructor).
  assert (H4 : aligned 3 3 3 [Scenario.m (map F64.of_Z [1; 2; 3]);
                              Scenario.m (map F64.of_Z [3; 4; 5])])
    by (repeat constructor).
  assert (H5 : binary64 Scenario.times) by (repeat constructor).
  assert (H6 : Forall (fun v => F64.halves_exactly v = true) Scenario.times)
    by (repeat constructor).
  split.
  - split; [exact H1|]. split; [exact H2|]. split; [exact H3|].
    split; [exact H4|].
    exact (proj1 average_is_elementwise_mean _ _ _ _ _ _ H1 H2 H3 H4).
  - split; [exact H5|]. split; [exact H6|].
    exact (proj2 (proj2 average_is_elementwise_mean)
             Scenario.times Scenario.stimuli H5 H6).
Defined.

(** C2.  With a non-negative [trace_alternance] and [0 <= index < count()],
    over arrays of binary64 samples, [average([index])] returns a
    measurement equal to [get_measurement(index)]: the [t], [x], [y] arrays
    have the same values position by position, and [dt], [duration],
    [frequencies] are the same. *)
Theorem average_single_equals_measurement
    (self : Experiment) (index : Z) (m : Measurement ndarray) :
  0 <= __trace_alternance self ->
  0 <= index < count self ->
  get_measurement self index = Ok m ->
  binary64 (t m) -> binary64 (x m) -> binary64 (y m) ->
  exists a ta xa ya,
    outcome (average self [index]) = Ok a /\
    t a = NdArray ta /\ Forall2 F64.same ta (t m) /\
    x a = NdArray xa /\ Forall2 F64.same xa (x m) /\
    y a = NdArray ya /\ Forall2 F64.same ya (y m) /\
    dt a = dt m /\
    duration a = duration m /\
    frequencies a = frequencies m.
Proof.
  intros Ha Hi Hg Ht Hx Hy.
  assert (Hm : measured self [index] [m]) by (repeat constructor; exact Hg).
  assert (Hal : aligned (length (t m)) (length (x m)) (length (y m)) [m])
    by (repeat constructor).
  assert (Hne : [index] <> []) by discriminate.
  pose proof (average_aligned self [index] [m] _ _ _ Ha Hne Hm Hal) as Hr.
  unfold outcome. rewrite Hr. cbn [fst map].
  do 4 eexists. split; [reflexivity|]. cbn [t x y dt duration frequencies].
  destruct (get_measurement_valid self index Hi) as (tr & _ & Hg').
  rewrite Hg in Hg'. injection Hg' as ->.
  repeat split; try reflexivity; apply elementwise_mean_single; assumption.
Qed.

Lemma average_single_equals_measurement_witness :
  0 <= __trace_alternance (loaded Scenario.two) /\
  0 <= 1 < count (loaded Scenario.two) /\
  get_measurement (loaded Scenario.two) 1 =
  Ok (Scenario.m (map F64.of_Z [3; 4; 5])) /\
  exists a ta xa ya,
    outcome (average (loaded Scenario.two) [1]) = Ok a /\
    t a = NdArray ta /\
    Forall2 F64.same ta (t (Scenario.m (map F64.of_Z [3; 4; 5]))) /\
    x a = NdArray xa /\
    Forall2 F64.same xa (x (Scenario.m (map F64.of_Z [3; 4; 5]))) /\
    y a = NdArray ya /\
    Forall2 F64.same ya (y (Scenario.m (map F64.of_Z [3; 4; 5]))) /\
    dt a = dt (Scenario.m (map F64.of_Z [3; 4; 5])) /\
    duration a = duration (Scenario.m (map F64.of_Z [3; 4; 5])) /\
    frequencies a = frequencies (Scenario.m (map F64.of_Z [3; 4; 5])).
Proof.
  assert (H1 : 0 <= __trace_alternance (loaded Scenario.two))
    by (simpl; lia).
  assert (H2 : 0 <= 1 < count (loaded Scenario.two))
    by (unfold count; simpl; lia).
  assert (H3 : get_measurement (loaded Scenario.two) 1 =
               Ok (Scenario.m (map F64.of_Z [3; 4; 5])))
    by reflexivity.
  split; [exact H1|]. split; [exact H2|]. split; [exact H3|].
  apply (average_single_equals_measurement
           (loaded Scenario.two) 1 (Scenario.m (map F64.of_Z [3; 4; 5]))
           H1 H2 H3);
    repeat constructor.
Defined.

(** C3, counterexample.  Three one-sample traces with responses [3 * 2^53],
    [3] and [-3 * 2^53]: averaged in the order [0, 1, 2] the response is
    [0.0], in the order [0, 2, 1] it is [1.0]. *)
Lemma average_order_dependent :
  __init__ Scenario.rounding = Ok (loaded Scenario.rounding) /\
  Permutation [0; 1; 2] [0; 2; 1] /\
  Forall (fun index => 0 <= index < count (loaded Scenario.rounding))
         [0; 1; 2] /\
  (exists a a',
      outcome (average (loaded Scenario.rounding) [0; 1; 2]) = Ok a /\
      outcome (average (loaded Scenario.rounding) [0; 2; 1]) = Ok a' /\
      y a = NdArray [F64.of_Z 0] /\
      y a' = NdArray [F64.of_Z 1]) /\
  outcome (average (loaded Scenario.rounding) [0; 2; 1]) <>
  outcome (average (loaded Scenario.rounding) [0; 1; 2]).
Proof.
  split; [apply init_loaded|].
  split; [apply perm_skip, perm_swap|].
  split; [repeat constructor; unfold count; simpl; lia|].
  split.
  - do 2 eexists. repeat split; vm_compute; reflexivity.
  - intros H. vm_compute in H. discriminate H.
Qed.

Lemma column_permutation {A : Type} (sel : A -> ndarray) (k : nat)
    (ms ms' : list A) :
  Permutation ms ms' ->
  Permutation (column k (map sel ms)) (column k (map sel ms')).
Proof.
  intros H. unfold column. apply Permutation_map, Permutation_map. exact H.
Qed.

(** C3, as the code has it.  For a list of valid indices over arrays of
    equal lengths and a permutation of it: under a negative
    [trace_alternance] both calls raise the same error; otherwise both
    return a measurement, with the same [dt], [duration], [frequencies] and
    the same array lengths, and the two measurements are identical when the
    list has at most two indices.  For a non-empty list the two results are
    the elementwise means of the same measurements taken in the two orders:
    at every position the terms summed are the same samples, each divided by
    the same [n], in the order of the list given. *)
Theorem average_permutation
    (self : Experiment) (indices indices' : list Z)
    (ms : list (Measurement ndarray)) (Lt Lx Ly : nat) :
  Permutation indices indices' ->
  measured self indices ms ->
  aligned Lt Lx Ly ms ->
  (__trace_alternance self < 0 ->
   outcome (average self indices') = outcome (average self indices)) /\
  (0 <= __trace_alternance self ->
   exists a a',
     outcome (average self indices) = Ok a /\
     outcome (average self indices') = Ok a' /\
     dt a' = dt a /\
     duration a' = duration a /\
     frequencies a' = frequencies a /\
     shape (t a') = shape (t a) /\
     shape (x a') = shape (x a) /\
     shape (y a') = shape (y a) /\
     ((length indices <= 2)%nat -> a' = a) /\
     (indices <> [] ->
      exists ms',
        Permutation ms ms' /\
        measured self indices' ms' /\
        length ms' = length ms /\
        a = {| dt := __dt self;
               duration := __duration self;
               frequencies := __frequencies self;
               t := NdArray (elementwise_mean (map t ms) Lt);
               x := NdArray (elementwise_mean (map x ms) Lx);
               y := NdArray (elementwise_mean (map y ms) Ly) |} /\
        a' = {| dt := __dt self;
                duration := __duration self;
                frequencies := __frequencies self;
                t := NdArray (elementwise_mean (map t ms') Lt);
                x := NdArray (elementwise_mean (map x ms') Lx);
                y := NdArray (elementwise_mean (map y ms') Ly) |} /\
        forall k,
          Permutation (column k (map t ms)) (column k (map t ms')) /\
          Permutation (column k (map x ms)) (column k (map x ms')) /\
          Permutation (column k (map y ms)) (column k (map y ms')))).
Proof.
  intros Hp Hm Hal. split.
  - intros Ha. unfold outcome. rewrite !average_negative by exact Ha.
    reflexivity.
  - intros Ha.
    destruct indices as [|i indices].
    { apply Permutation_nil in Hp. subst indices'.
      unfold outcome. rewrite average_unfold by exact Ha. simpl.
      do 2 eexists.
      do 8 (split; [reflexivity|]).
      split; [reflexivity | congruence]. }
    destruct (measured_permutation self _ _ Hp ms Hm) as (ms' & Hpm & Hm').
    assert (Hal' : aligned Lt Lx Ly ms')
      by (apply (Permutation_Forall Hpm); exact Hal).
    assert (Hne : i :: indices <> []) by discriminate.
    assert (Hne' : indices' <> []).
    { intros ->. apply Permutation_sym, Permutation_nil in Hp. discriminate. }
    unfold outcome.
    rewrite (average_aligned self _ ms Lt Lx Ly Ha Hne Hm Hal).
    rewrite (average_aligned self _ ms' Lt Lx Ly Ha Hne' Hm' Hal').
    cbn [fst]. do 2 eexists.
    split; [reflexivity|]. split; [reflexivity|].
    cbn [dt duration frequencies t x y shape].
    rewrite !elementwise_mean_length.
    repeat (split; [reflexivity|]).
    split.
    + intros Hl.
      destruct (permutation_small _ _ Hp Hl) as [->|(a & b & E & ->)].
      * rewrite (measured_functional self _ ms' ms Hm' Hm). reflexivity.
      * rewrite E in Hm.
        inversion Hm as [|? ma ? ms0 Hga Hr]; subst.
        inversion Hr as [|? mb ? ms1 Hgb Hr']; subst.
        inversion Hr'; subst.
        assert (Hs : measured self [b; a] [mb; ma])
          by (repeat constructor; assumption).
        rewrite (measured_functional self _ ms' _ Hm' Hs).
        cbn [map].
        rewrite (elementwise_mean_swap (t mb) (t ma)).
        rewrite (elementwise_mean_swap (x mb) (x ma)).
        rewrite (elementwise_mean_swap (y mb) (y ma)).
        reflexivity.
    + intros _. exists ms'.
      split; [exact Hpm|]. split; [exact Hm'|].
      split; [symmetry; apply (Permutation_length Hpm)|].
      split; [reflexivity|]. split; [reflexivity|].
      intros k. repeat split; apply column_permutation; exact Hpm.
Qed.

Lemma average_permutation_witness :
  Permutation [0; 1; 1] [1; 0; 1] /\
  measured (loaded Scenario.two) [0; 1; 1]
           [Scenario.m (map F64.of_Z [1; 2; 3]);
            Scenario.m (map F64.of_Z [3; 4; 5]);
            Scenario.m (map F64.of_Z [3; 4; 5])] /\
  aligned 3 3 3 [Scenario.m (map F64.of_Z [1; 2; 3]);
                 Scenario.m (map F64.of_Z [3; 4; 5]);
                 Scenario.m (map F64.of_Z [3; 4; 5])] /\
  0 <= __trace_alternance (loaded Scenario.two) /\
  [0; 1; 1] <> [] /\
  exists a a' ms',
    outcome (average (loaded Scenario.two) [0; 1; 1]) = Ok a /\
    outcome (average (loaded Scenario.two) [1; 0; 1]) = Ok a' /\
    measured (loaded Scenario.two) [1; 0; 1] ms' /\
    y a = NdArray
            (elementwise_mean
               (map y [Scenario.m (map F64.of_Z [1; 2; 3]);
                       Scenario.m (map F64.of_Z [3; 4; 5]);
                       Scenario.m (map F64.of_Z [3; 4; 5])]) 3) /\
    y a' = NdArray (elementwise_mean (map y ms') 3).
Proof.
  assert (H1 : Permutation [0; 1; 1] [1; 0; 1]) by apply perm_swap.
  assert (H2 : measured (loaded Scenario.two) [0; 1; 1]
                 [Scenario.m (map F64.of_Z [1; 2; 3]);
                  Scenario.m (map F64.of_Z [3; 4; 5]);
                  Scenario.m (map F64.of_Z [3; 4; 5])])
    by (repeat constructor).
  assert (H3 : aligned 3 3 3 [Scenario.m (map F64.of_Z [1; 2; 3]);
                              Scenario.m (map F64.of_Z [3; 4; 5]);
                              Scenario.m (map F64.of_Z [3; 4; 5])])
    by (repeat constructor).
  assert (H4 : 0 <= __trace_alternance (loaded Scenario.two))
    by (simpl; lia).
  assert (H5 : [0; 1; 1] <> @nil Z) by discriminate.
  split; [exact H1|]. split; [exact H2|]. split; [exact H3|].
  split; [exact H4|]. split; [exact H5|].
  destruct (proj2 (average_permutation (loaded Scenario.two)
                     [0; 1; 1] [1; 0; 1] _ 3 3 3 H1 H2 H3) H4)
    as (a & a' & Ho & Ho' & _ & _ & _ & _ & _ & _ & _ & Hs).
  destruct (Hs H5) as (ms' & _ & Hm' & _ & Ea & Ea' & _).
  exists a, a', ms'.
  split; [exact Ho|]. split; [exact Ho'|]. split; [exact Hm'|].
  split; [rewrite Ea | rewrite Ea']; reflexivity.
Defined.

(** C4.  Under a negative [trace_alternance], [average(indices)] of a
    non-empty list, valid indices or not, raises [NotImplementedError], and
    no index has been tested nor any measurement accumulated by then. *)
Theorem average_negative_alternance_fails_fast
    (self : Experiment) (indices : list Z) :
  __trace_alternance self < 0 ->
  indices <> [] ->
  outcome (average self indices) =
  Raise (NotImplementedError
           "Averaging with trace alternance is not yet implemented") /\
  events (average self indices) = [].
Proof.
  intros Ha _. unfold outcome, events.
  rewrite average_negative by exact Ha. split; reflexivity.
Qed.

Lemma average_negative_alternance_fails_fast_witness :
  __trace_alternance (loaded Scenario.alternating) < 0 /\
  [0; 1] <> [] /\
  outcome (average (loaded Scenario.alternating) [0; 1]) =
  Raise (NotImplementedError
           "Averaging with trace alternance is not yet implemented") /\
  events (average (loaded Scenario.alternating) [0; 1]) = [].
Proof.
  assert (H1 : __trace_alternance (loaded Scenario.alternating) < 0)
    by (simpl; lia).
  assert (H2 : [0; 1] <> @nil Z) by discriminate.
  split; [exact H1|]. split; [exact H2|].
  exact (average_negative_alternance_fails_fast
           (loaded Scenario.alternating) [0; 1] H1 H2).
Defined.

(** C5, counterexamples.  Under a negative [trace_alternance] the list
    [[0, 2]] over two traces raises [NotImplementedError], and over two
    traces of two and three samples the list [[0, 1, 2]] raises numpy's
    [ValueError] at index 1: in neither run is an [IndexError] raised for
    the index 2. *)
Lemma average_index_error_not_raised :
  (__init__ Scenario.alternating = Ok (loaded Scenario.alternating) /\
   Exists (fun index =>
             index < 0 \/ index >= count (loaded Scenario.alternating))
          [0; 2] /\
   outcome (average (loaded Scenario.alternating) [0; 2]) =
   Raise (NotImplementedError
            "Averaging with trace alternance is not yet implemented") /\
   ~ (exists msg,
         outcome (average (loaded Scenario.alternating) [0; 2]) =
         Raise (IndexError msg))) /\
  (__init__ Scenario.ragged = Ok (loaded Scenario.ragged) /\
   Exists (fun index => index < 0 \/ index >= count (loaded Scenario.ragged))
          [0; 1; 2] /\
   run (average (loaded Scenario.ragged) [0; 1; 2]) =
   (Raise (ValueError 2 3),
    [Validate 0; Accumulate 0; Validate 1; Accumulate 1]) /\
   ~ (exists msg,
         outcome (average (loaded Scenario.ragged) [0; 1; 2]) =
         Raise (IndexError msg))).
Proof.
  split; (split; [apply init_loaded|]); split.
  - apply Exists_cons_tl, Exists_cons_hd. right. unfold count. simpl. lia.
  - split; [reflexivity|]. intros [msg H]. vm_compute in H. discriminate H.
  - do 2 apply Exists_cons_tl. apply Exists_cons_hd.
    right. unfold count. simpl. lia.
  - split; [vm_compute; reflexivity|].
    intros [msg H]. vm_compute in H. discriminate H.
Qed.

(** C5, as the code has it.  With a non-negative [trace_alternance], a
    list holding an index outside [0, count()) splits at its first such
    index [bad]: the indices before it are valid, and when their arrays have
    equal lengths the call raises the [IndexError] that cites [bad], after
    testing and accumulating the indices before it in the order of the list
    and testing [bad], and returns no measurement.  [average([0, count()])]
    raises the error citing [count()], and index 0 is tested first. *)
Theorem average_reports_first_invalid :
  (forall (self : Experiment) (indices : list Z),
      0 <= __trace_alternance self ->
      Exists (fun index => index < 0 \/ index >= count self) indices ->
      exists good bad rest ms,
        indices = good ++ bad :: rest /\
        measured self good ms /\
        Forall (fun index => 0 <= index < count self) good /\
        (bad < 0 \/ bad >= count self) /\
        forall Lt Lx Ly,
          aligned Lt Lx Ly ms ->
          run (average self indices) =
          (Raise (IndexError
                    ("Invalid measurement index (" ++ format_d bad ++ ")")
                    %string),
           visited good ++ [Validate bad])) /\
  (forall self : Experiment,
      0 <= __trace_alternance self ->
      outcome (average self [0; count self]) =
      Raise (index_error (count self)) /\
      exists later,
        events (average self [0; count self]) = Validate 0 :: later).
Proof.
  split.
  - intros self indices Ha He.
    destruct (first_invalid_split self indices He)
      as (good & bad & rest & ms & -> & Hm & Hb).
    exists good, bad, rest, ms.
    split; [reflexivity|]. split; [exact Hm|].
    split; [apply (measured_valid self good ms Hm)|].
    split; [exact Hb|].
    intros Lt Lx Ly Hal.
    rewrite average_unfold by exact Ha.
    destruct (aligned_columns Lt Lx Ly ms Hal) as (Ht & Hx & Hy).
    destruct ms as [|m ms].
    + inversion Hm; subst. cbn [app visit_all].
      unfold bind. rewrite visit_invalid by (apply invalid_index_true; exact Hb).
      reflexivity.
    + set (n := length (good ++ bad :: rest)).
      rewrite (visit_all_first_invalid self n good bad rest (m :: ms)
                 (PyInt 0) (PyInt 0) (PyInt 0) _ _ _ [] Hm
                 (sum_terms_from_zero n Lt (t m) (map t ms) Ht)
                 (sum_terms_from_zero n Lx (x m) (map x ms) Hx)
                 (sum_terms_from_zero n Ly (y m) (map y ms) Hy)).
      * reflexivity.
      * apply invalid_index_true. exact Hb.
  - intros self Ha. unfold outcome, events.
    rewrite average_unfold by exact Ha.
    destruct (Z.eq_dec (count self) 0) as [E|E].
    + rewrite E. cbn [visit_all]. unfold bind.
      rewrite visit_invalid by (apply invalid_index_true; lia).
      split; [reflexivity | eexists; reflexivity].
    + assert (Hv : 0 <= 0 < count self) by (unfold count in *; lia).
      destruct (get_measurement_valid self 0 Hv) as (tr & _ & Hg).
      pose proof (visit_all_first_invalid self (length [0; count self])
                    [0] (count self) [] [_]
                    (PyInt 0) (PyInt 0) (PyInt 0) _ _ _ []
                    (Forall2_cons _ _ Hg (Forall2_nil _))
                    eq_refl eq_refl eq_refl) as Hr.
      cbn [app] in Hr. rewrite Hr by (apply invalid_index_true; lia).
      split; [reflexivity | eexists; reflexivity].
Qed.

Lemma average_reports_first_invalid_witness :
  0 <= __trace_alternance (loaded Scenario.two) /\
  Exists (fun index => index < 0 \/ index >= count (loaded Scenario.two))
         [0; 5; 1; 7] /\
  (exists good bad rest ms,
      [0; 5; 1; 7] = good ++ bad :: rest /\
      measured (loaded Scenario.two) good ms /\
      Forall (fun index => 0 <= index < count (loaded Scenario.two)) good /\
      (bad < 0 \/ bad >= count (loaded Scenario.two)) /\
      forall Lt Lx Ly,
        aligned Lt Lx Ly ms ->
        run (average (loaded Scenario.two) [0; 5; 1; 7]) =
        (Raise (IndexError
                  ("Invalid measurement index (" ++ format_d bad ++ ")")
                  %string),
         visited good ++ [Validate bad])) /\
  outcome (average (loaded Scenario.two) [0; count (loaded Scenario.two)]) =
  Raise (index_error (count (loaded Scenario.two))) /\
  exists later,
    events (average (loaded Scenario.two) [0; count (loaded Scenario.two)]) =
    Validate 0 :: later.
Proof.
  assert (H1 : 0 <= __trace_alternance (loaded Scenario.two))
    by (simpl; lia).
  assert (H2 : Exists (fun index =>
                         index < 0 \/ index >= count (loaded Scenario.two))
                      [0; 5; 1; 7])
    by (apply Exists_cons_tl, Exists_cons_hd; right; unfold count; simpl; lia).
  split; [exact H1|]. split; [exact H2|].
  split.
  - exact (proj1 average_reports_first_invalid (loaded Scenario.two)
             [0; 5; 1; 7] H1 H2).
  - exact (proj2 average_reports_first_invalid (loaded Scenario.two) H1).
Defined.

(** The empty list.  With a non-negative [trace_alternance] the loop of
    [average([])] makes no turn: no index is tested, nothing is divided or
    accumulated, and the constructor of [Measurement] is given the [dt],
    [duration], [frequencies] of the experiment and the Python integer 0 as
    [t], [x] and [y].  (Whether the class of the repository accepts the
    integers is its own matter.) *)
Theorem average_empty (self : Experiment) :
  0 <= __trace_alternance self ->
  run (average self []) =
  (Ok {| dt := __dt self;
         duration := __duration self;
         frequencies := __frequencies self;
         t := PyInt 0;
         x := PyInt 0;
         y := PyInt 0 |},
   []).
Proof.
  intros Ha. rewrite average_unfold by exact Ha. reflexivity.
Qed.

Lemma average_empty_witness :
  0 <= __trace_alternance (loaded Scenario.two) /\
  run (average (loaded Scenario.two) []) =
  (Ok {| dt := __dt (loaded Scenario.two);
         duration := __duration (loaded Scenario.two);
         frequencies := __frequencies (loaded Scenario.two);
         t := PyInt 0;
         x := PyInt 0;
         y := PyInt 0 |},
   []).
Proof.
  assert (H1 : 0 <= __trace_alternance (loaded Scenario.two))
    by (simpl; lia).
  split; [exact H1|].
  exact (average_empty (loaded Scenario.two) H1).
Defined.

(** C10.  The test of [trace_alternance] comes before every test of an
    index and every accumulation: when it is negative, [average] raises
    [NotImplementedError] for any list of indices, the empty list and lists
    with indices out of range included, with no index tested; it never
    raises [IndexError] then. *)
Theorem average_alternance_check_first
    (self : Experiment) (indices : list Z) :
  __trace_alternance self < 0 ->
  run (average self indices) =
  (Raise (NotImplementedError
            "Averaging with trace alternance is not yet implemented"), []) /\
  (forall msg, outcome (average self indices) <> Raise (IndexError msg)).
Proof.
  intros Ha. unfold outcome.
  rewrite average_negative by exact Ha.
  split; [reflexivity|]. intros msg H. discriminate H.
Qed.

Lemma average_alternance_check_first_witness :
  __trace_alternance (loaded Scenario.alternating) < 0 /\
  run (average (loaded Scenario.alternating) [0; 7]) =
  (Raise (NotImplementedError
            "Averaging with trace alternance is not yet implemented"), []) /\
  (forall msg,
      outcome (average (loaded Scenario.alternating) [0; 7]) <>
      Raise (IndexError msg)).
Proof.
  assert (H1 : __trace_alternance (loaded Scenario.alternating) < 0)
    by (simpl; lia).
  split; [exact H1|].
  exact (average_alternance_check_first
           (loaded Scenario.alternating) [0; 7] H1).
Defined.

(** ** Instances over the sample records *)

Lemma count_equals_trace_count_witness :
  Z.of_nat (length (Json.traces Scenario.two)) =
  Json.trace_count Scenario.two /\
  exists self,
    __init__ Scenario.two = Ok self /\
    count self = Json.trace_count Scenario.two /\
    count self = __trace_count self.
Proof.
  assert (H1 : Z.of_nat (length (Json.traces Scenario.two)) =
               Json.trace_count Scenario.two) by reflexivity.
  split; [exact H1|].
  exact (count_equals_trace_count Scenario.two H1).
Defined.

Lemma get_measurement_copy_through_witness :
  0 <= 1 < count (loaded Scenario.two) /\
  exists tr m,
    nth_error (__traces (loaded Scenario.two)) (Z.to_nat 1) = Some tr /\
    get_measurement (loaded Scenario.two) 1 = Ok m /\
    t m = time (multisine tr) /\
    x m = stimulation (multisine tr) /\
    y m = response (multisine tr) /\
    dt m = __dt (loaded Scenario.two) /\
    duration m = __duration (loaded Scenario.two) /\
    frequencies m = __frequencies (loaded Scenario.two).
Proof.
  assert (H1 : 0 <= 1 < count (loaded Scenario.two))
    by (unfold count; simpl; lia).
  split; [exact H1|].
  exact (get_measurement_copy_through (loaded Scenario.two) 1 H1).
Defined.

Lemma get_measurement_index_error_witness :
  (2 < 0 \/ 2 >= count (loaded Scenario.two)) /\
  get_measurement (loaded Scenario.two) 2 =
  Raise (IndexError
           ("Invalid measurement index (" ++ format_d 2 ++ ")")%string).
Proof.
  assert (H1 : 2 < 0 \/ 2 >= count (loaded Scenario.two))
    by (right; unfold count; simpl; lia).
  split; [exact H1|].
  exact (proj1 (proj2 (get_measurement_index_error (loaded Scenario.two) 2))
           H1).
Defined.

(** * Further properties of the module *)

(** ** The constructor *)

Lemma nth_error_loaded (j : Json.record) (i : nat) :
  nth_error (__traces (loaded j)) i =
  option_map load_trace (nth_error (Json.traces j) i).
Proof. apply nth_error_map. Qed.

Lemma count_loaded (j : Json.record) :
  count (loaded j) = Z.of_nat (length (Json.traces j)).
Proof. unfold count. simpl. rewrite length_map. reflexivity. Qed.

(** An experiment that the constructor has built from a decoded record is
    a copy of the record: the [version] accessor returns the record's
    version, there are as many traces as the record holds, and trace [i]
    holds, array for array, the step, multisine and drop segments of the
    record's trace [i].  (A text that lacks one of the keys raises in the
    constructor and builds nothing.) *)
Theorem constructor_copies_record (j : Json.record) (self : Experiment) :
  __init__ j = Ok self ->
  version self = Json.version j /\
  length (__traces self) = length (Json.traces j) /\
  forall (i : nat) (jt : Json.trace),
    nth_error (Json.traces j) i = Some jt ->
    exists tr,
      nth_error (__traces self) i = Some tr /\
      time (step tr) = Json.time (Json.step jt) /\
      stimulation (step tr) = Json.stimulation (Json.step jt) /\
      response (step tr) = Json.response (Json.step jt) /\
      time (multisine tr) = Json.time (Json.multisine jt) /\
      stimulation (multisine tr) = Json.stimulation (Json.multisine jt) /\
      response (multisine tr) = Json.response (Json.multisine jt) /\
      time (drop tr) = Json.time (Json.drop jt) /\
      stimulation (drop tr) = Json.stimulation (Json.drop jt) /\
      response (drop tr) = Json.response (Json.drop jt).
Proof.
  intros H. rewrite init_loaded in H. injection H as <-.
  split; [reflexivity|].
  split; [simpl; apply length_map|].
  intros i jt Hjt. exists (load_trace jt).
  rewrite nth_error_loaded, Hjt. simpl. repeat split; reflexivity.
Qed.

Lemma constructor_copies_record_witness :
  __init__ Cases.other = Ok (loaded Cases.other) /\
  nth_error (Json.traces Cases.other) 1 =
  Some {| Json.step := Scenario.seg [] [] [Scenario.f 3];
          Json.multisine :=
            Scenario.seg Scenario.times Scenario.stimuli
                         (map Scenario.f [3; 4; 5]);
          Json.drop := Scenario.seg [Scenario.f 4] [] [] |} /\
  version (loaded Cases.other) = "2.1"%string /\
  exists tr,
    nth_error (__traces (loaded Cases.other)) 1 = Some tr /\
    response (step tr) = [Scenario.f 3] /\
    time (drop tr) = [Scenario.f 4].
Proof.
  assert (H0 : __init__ Cases.other = Ok (loaded Cases.other))
    by reflexivity.
  assert (H1 : nth_error (Json.traces Cases.other) 1 =
               Some {| Json.step := Scenario.seg [] [] [Scenario.f 3];
                       Json.multisine :=
                         Scenario.seg Scenario.times Scenario.stimuli
                                      (map Scenario.f [3; 4; 5]);
                       Json.drop := Scenario.seg [Scenario.f 4] [] [] |})
    by reflexivity.
  split; [exact H0|]. split; [exact H1|].
  destruct (constructor_copies_record Cases.other (loaded Cases.other) H0)
    as (Hv & _ & Ht).
  destruct (Ht 1%nat _ H1)
    as (tr & Hn & _ & _ & Hr & _ & _ & _ & Hd & _).
  split; [exact Hv|].
  exists tr. split; [exact Hn|]. split; [exact Hr | exact Hd].
Defined.

Lemma get_measurement_loaded (j : Json.record) (index : Z) :
  0 <= index < Z.of_nat (length (Json.traces j)) ->
  exists jt,
    nth_error (Json.traces j) (Z.to_nat index) = Some jt /\
    get_measurement (loaded j) index =
    Ok {| dt := Json.dt j;
          duration := Json.duration j;
          frequencies := Json.frequencies j;
          t := Json.time (Json.multisine jt);
          x := Json.stimulation (Json.multisine jt);
          y := Json.response (Json.multisine jt) |}.
Proof.
  intros H. rewrite <- count_loaded in H.
  destruct (get_measurement_valid (loaded j) index H) as (tr & Hn & Hg).
  rewrite nth_error_loaded in Hn.
  destruct (nth_error (Json.traces j) (Z.to_nat index)) as [jt|];
    [|discriminate].
  injection Hn as <-. exists jt. split; [reflexivity | exact Hg].
Qed.

(** Lookup after construction.  In the experiment built from a record,
    [get_measurement(index)] succeeds exactly for
    [0 <= index < len(j['traces'])], whatever the [trace_count] field says,
    and returns the record's [dt], [duration], [frequencies] with the time,
    stimulation and response arrays of the multisine segment of
    [j['traces'][index]]; outside that range it raises the [IndexError] of
    the index. *)
Theorem get_measurement_of_record (j : Json.record) (index : Z) :
  exists self,
    __init__ j = Ok self /\
    count self = Z.of_nat (length (Json.traces j)) /\
    (0 <= index < Z.of_nat (length (Json.traces j)) ->
     exists jt,
       nth_error (Json.traces j) (Z.to_nat index) = Some jt /\
       get_measurement self index =
       Ok {| dt := Json.dt j;
             duration := Json.duration j;
             frequencies := Json.frequencies j;
             t := Json.time (Json.multisine jt);
             x := Json.stimulation (Json.multisine jt);
             y := Json.response (Json.multisine jt) |}) /\
    (~ 0 <= index < Z.of_nat (length (Json.traces j)) ->
     get_measurement self index = Raise (index_error index)).
Proof.
  exists (loaded j).
  split; [apply init_loaded|]. split; [apply count_loaded|].
  split.
  - apply get_measurement_loaded.
  - intros H. apply get_measurement_invalid. rewrite count_loaded. lia.
Qed.

Lemma get_measurement_of_record_witness :
  (0 <= 1 < Z.of_nat (length (Json.traces Cases.other)) /\
   ~ 0 <= 4 < Z.of_nat (length (Json.traces Cases.other)) /\
   Json.trace_count Cases.other = 5) /\
  exists self,
    __init__ Cases.other = Ok self /\
    count self = 2 /\
    (exists m, get_measurement self 1 = Ok m /\
               y m = map Scenario.f [3; 4; 5]) /\
    get_measurement self 4 = Raise (index_error 4).
Proof.
  assert (H1 : 0 <= 1 < Z.of_nat (length (Json.traces Cases.other)))
    by (simpl; lia).
  assert (H2 : ~ 0 <= 4 < Z.of_nat (length (Json.traces Cases.other)))
    by (simpl; lia).
  split; [split; [exact H1 | split; [exact H2 | reflexivity]]|].
  destruct (get_measurement_of_record Cases.other 1)
    as (self & Hi & Hc & Hin & _).
  destruct (get_measurement_of_record Cases.other 4)
    as (self' & Hi' & _ & _ & Hout).
  rewrite Hi in Hi'. injection Hi' as <-.
  destruct (Hin H1) as (jt & Hn & Hg).
  exists self. split; [exact Hi|]. split; [exact Hc|].
  split; [|exact (Hout H2)].
  eexists. split; [exact Hg|].
  simpl in Hn. injection Hn as <-. reflexivity.
Defined.

(** ** What [average] reads *)

Lemma average_step_ext (self self' : Experiment) :
  (forall index, invalid_index self index = invalid_index self' index) ->
  (forall index, get_measurement self index = get_measurement self' index) ->
  forall indices n i acc log,
    average_step self indices n i acc log =
    average_step self' indices n i acc log.
Proof.
  intros Hv Hg indices n i [[t0 x0] y0] log.
  unfold average_step, bind, lift, tell.
  destruct (getitem indices (Z.of_nat i)) as [index|e]; [|reflexivity].
  rewrite Hv, Hg. reflexivity.
Qed.

Lemma average_loop_ext (self self' : Experiment) :
  (forall index, invalid_index self index = invalid_index self' index) ->
  (forall index, get_measurement self index = get_measurement self' index) ->
  forall indices n range acc log,
    average_loop self indices n range acc log =
    average_loop self' indices n range acc log.
Proof.
  intros Hv Hg indices n range.
  induction range as [|i range IH]; intros acc log; simpl; [reflexivity|].
  unfold bind. rewrite (average_step_ext self self' Hv Hg).
  destruct (average_step self' indices n i acc log) as [[acc'|e] log'];
    [apply IH | reflexivity].
Qed.

Lemma average_ext (self self' : Experiment) :
  __trace_alternance self = __trace_alternance self' ->
  __dt self = __dt self' ->
  __duration self = __duration self' ->
  __frequencies self = __frequencies self' ->
  (forall index, invalid_index self index = invalid_index self' index) ->
  (forall index, get_measurement self index = get_measurement self' index) ->
  forall indices, run (average self indices) = run (average self' indices).
Proof.
  intros Ha Hd Hu Hf Hv Hg indices. unfold run, average.
  rewrite Ha, Hd, Hu, Hf.
  destruct (__trace_alternance self' <? 0); [reflexivity|].
  unfold bind. rewrite (average_loop_ext self self' Hv Hg). reflexivity.
Qed.

(** [get_measurement] and [average] read five things of the record: [dt],
    [duration], [frequencies], [trace_alternance] and the multisine
    segments.  Two records that agree on these give, at every index and for
    every list of indices, the same results, the same errors and the same
    order of index tests, whatever their step and drop segments, version,
    amplitudes, phases, levels, delays, pause and [trace_count] are. *)
Theorem queries_read_multisine_only (j j' : Json.record) :
  Json.dt j = Json.dt j' ->
  Json.duration j = Json.duration j' ->
  Json.frequencies j = Json.frequencies j' ->
  Json.trace_alternance j = Json.trace_alternance j' ->
  map Json.multisine (Json.traces j) = map Json.multisine (Json.traces j') ->
  exists self self',
    __init__ j = Ok self /\
    __init__ j' = Ok self' /\
    count self = count self' /\
    (forall index, get_measurement self index = get_measurement self' index) /\
    (forall indices, run (average self indices) = run (average self' indices)).
Proof.
  intros Hd Hu Hf Ha Hm.
  assert (Hl : length (Json.traces j) = length (Json.traces j')).
  { rewrite <- (length_map Json.multisine (Json.traces j)), Hm.
    apply length_map. }
  assert (Hc : count (loaded j) = count (loaded j'))
    by (rewrite !count_loaded, Hl; reflexivity).
  assert (Hv : forall index,
             invalid_index (loaded j) index = invalid_index (loaded j') index).
  { intros index. unfold invalid_index. simpl. rewrite !length_map, Hl.
    reflexivity. }
  assert (Hg : forall index,
             get_measurement (loaded j) index =
             get_measurement (loaded j') index).
  { intros index.
    destruct (Z_lt_ge_dec index 0) as [Hn|Hn].
    { rewrite !get_measurement_invalid by lia. reflexivity. }
    destruct (Z_lt_ge_dec index (Z.of_nat (length (Json.traces j))))
      as [Hi|Hi].
    2:{ rewrite !get_measurement_invalid by (rewrite count_loaded; lia).
        reflexivity. }
    destruct (get_measurement_loaded j index) as (jt & Hjt & ->); [lia|].
    destruct (get_measurement_loaded j' index) as (jt' & Hjt' & ->); [lia|].
    assert (E : Json.multisine jt = Json.multisine jt').
    { apply (map_nth_error Json.multisine) in Hjt, Hjt'.
      rewrite Hm in Hjt. congruence. }
    rewrite Hd, Hu, Hf, E. reflexivity. }
  exists (loaded j), (loaded j').
  split; [apply init_loaded|]. split; [apply init_loaded|].
  split; [exact Hc|]. split; [exact Hg|].
  apply average_ext; try assumption.
Qed.

Lemma queries_read_multisine_only_witness :
  (Json.dt Scenario.two = Json.dt Cases.other /\
   Json.duration Scenario.two = Json.duration Cases.other /\
   Json.frequencies Scenario.two = Json.frequencies Cases.other /\
   Json.trace_alternance Scenario.two = Json.trace_alternance Cases.other /\
   map Json.multisine (Json.traces Scenario.two) =
   map Json.multisine (Json.traces Cases.other)) /\
  exists self self',
    __init__ Scenario.two = Ok self /\
    __init__ Cases.other = Ok self' /\
    count self = count self' /\
    (forall index, get_measurement self index = get_measurement self' index) /\
    (forall indices, run (average self indices) = run (average self' indices)).
Proof.
  assert (H1 : Json.dt Scenario.two = Json.dt Cases.other) by reflexivity.
  assert (H2 : Json.duration Scenario.two = Json.duration Cases.other)
    by reflexivity.
  assert (H3 : Json.frequencies Scenario.two = Json.frequencies Cases.other)
    by reflexivity.
  assert (H4 : Json.trace_alternance Scenario.two =
               Json.trace_alternance Cases.other) by reflexivity.
  assert (H5 : map Json.multisine (Json.traces Scenario.two) =
               map Json.multisine (Json.traces Cases.other)) by reflexivity.
  split; [repeat split; assumption|].
  exact (queries_read_multisine_only Scenario.two Cases.other H1 H2 H3 H4 H5).
Defined.

(** ** Repeated indices *)

(** An index may occur twice in the list and then counts twice:
    [average([index, index])] is the measurement at the index itself, array
    for array, when the samples halve exactly. *)
Theorem average_of_repeated_index
    (self : Experiment) (index : Z) (m : Measurement ndarray) :
  0 <= __trace_alternance self ->
  get_measurement self index = Ok m ->
  binary64 (t m) -> binary64 (x m) -> binary64 (y m) ->
  Forall (fun v => F64.halves_exactly v = true) (t m) ->
  Forall (fun v => F64.halves_exactly v = true) (x m) ->
  Forall (fun v => F64.halves_exactly v = true) (y m) ->
  outcome (average self [index; index]) =
  Ok {| dt := dt m;
        duration := duration m;
        frequencies := frequencies m;
        t := NdArray (t m);
        x := NdArray (x m);
        y := NdArray (y m) |}.
Proof.
  intros Ha Hg Vt Vx Vy Ht Hx Hy.
  assert (Hm : measured self [index; index] [m; m])
    by (repeat constructor; exact Hg).
  assert (Hal : aligned (length (t m)) (length (x m)) (length (y m)) [m; m])
    by (repeat constructor).
  assert (Hne : [index; index] <> []) by discriminate.
  unfold outcome.
  rewrite (average_aligned self _ _ _ _ _ Ha Hne Hm Hal). cbn [fst map].
  rewrite (elementwise_mean_twice (t m) Vt Ht).
  rewrite (elementwise_mean_twice (x m) Vx Hx).
  rewrite (elementwise_mean_twice (y m) Vy Hy).
  assert (Hi : 0 <= index < count self).
  { apply invalid_index_false.
    destruct (invalid_index self index) eqn:E; [|reflexivity].
    unfold get_measurement in Hg. rewrite E in Hg. discriminate. }
  destruct (get_measurement_valid self index Hi) as (tr & _ & Hg').
  rewrite Hg in Hg'. injection Hg' as ->. reflexivity.
Qed.

Lemma average_of_repeated_index_witness :
  0 <= __trace_alternance (loaded Scenario.two) /\
  get_measurement (loaded Scenario.two) 1 =
  Ok (Scenario.m (map F64.of_Z [3; 4; 5])) /\
  outcome (average (loaded Scenario.two) [1; 1]) =
  Ok {| dt := dt (Scenario.m (map F64.of_Z [3; 4; 5]));
        duration := duration (Scenario.m (map F64.of_Z [3; 4; 5]));
        frequencies := frequencies (Scenario.m (map F64.of_Z [3; 4; 5]));
        t := NdArray (t (Scenario.m (map F64.of_Z [3; 4; 5])));
        x := NdArray (x (Scenario.m (map F64.of_Z [3; 4; 5])));
        y := NdArray (y (Scenario.m (map F64.of_Z [3; 4; 5]))) |}.
Proof.
  assert (H1 : 0 <= __trace_alternance (loaded Scenario.two))
    by (simpl; lia).
  assert (H2 : get_measurement (loaded Scenario.two) 1 =
               Ok (Scenario.m (map F64.of_Z [3; 4; 5]))) by reflexivity.
  split; [exact H1|]. split; [exact H2|].
  apply (average_of_repeated_index (loaded Scenario.two) 1 _ H1 H2);
    repeat constructor.
Defined.

(** ** Arrays of different lengths *)

Lemma visit_all_app (self : Experiment) (n : nat) (l1 l2 : list Z)
    (acc : accumulators) (log : list event) :
  visit_all self n (l1 ++ l2) acc log =
  match visit_all self n l1 acc log with
  | (Ok acc', log') => visit_all self n l2 acc' log'
  | (Raise e, log') => (Raise e, log')
  end.
Proof.
  revert acc log. induction l1 as [|i l1 IH]; intros acc log.
  - reflexivity.
  - cbn [app visit_all]. unfold bind.
    destruct (visit self n i acc log) as [[acc'|e] log'];
      [apply IH | reflexivity].
Qed.

Lemma array_add_mismatch (a b : ndarray) :
  length a <> length b -> length a <> 1%nat -> length b <> 1%nat ->
  array_add a b = Raise (ValueError (length a) (length b)).
Proof.
  intros Hab Ha Hb. unfold array_add.
  apply Nat.eqb_neq in Hab. rewrite Hab.
  destruct a as [|u [|u' a]]; destruct b as [|v [|v' b]];
    simpl in *; try congruence; reflexivity.
Qed.

Lemma array_add_one_sample (a : ndarray) (v : F64.float) :
  array_add a [v] = Ok (map (fun u => F64.add u v) a).
Proof. destruct a as [|u [|u' a]]; reflexivity. Qed.

Lemma visit_mismatch (self : Experiment) (n : nat) (index : Z)
    (m : Measurement ndarray) (b : ndarray) (x0 y0 : value) (e : exn)
    (log : list event) :
  get_measurement self index = Ok m ->
  array_add b (array_div (t m) n) = Raise e ->
  visit self n index (NdArray b, x0, y0) log =
  (Raise e, log ++ [Validate index; Accumulate index]).
Proof.
  intros Hm He. unfold visit, bind, tell, lift.
  assert (Hv : invalid_index self index = false).
  { destruct (invalid_index self index) eqn:E; [|reflexivity].
    unfold get_measurement in Hm. rewrite E in Hm. discriminate. }
  rewrite Hv, Hm. unfold value_add. rewrite He, <- app_assoc. reflexivity.
Qed.

(** The lengths of the arrays are not compared beforehand.  After one or
    more valid indices whose arrays have equal lengths, a valid index whose
    time array has another length, neither of the two lengths being 1,
    stops the call with numpy's [ValueError] on the two shapes: the index has
    passed its range test and the accumulation has begun; no measurement is
    returned and the indices after it are not looked at. *)
Theorem average_length_mismatch
    (self : Experiment) (good : list Z) (ms : list (Measurement ndarray))
    (Lt Lx Ly : nat) (next : Z) (mn : Measurement ndarray) (rest : list Z) :
  0 <= __trace_alternance self ->
  good <> [] ->
  measured self good ms ->
  aligned Lt Lx Ly ms ->
  get_measurement self next = Ok mn ->
  length (t mn) <> Lt ->
  Lt <> 1%nat ->
  length (t mn) <> 1%nat ->
  run (average self (good ++ next :: rest)) =
  (Raise (ValueError Lt (length (t mn))),
   visited good ++ [Validate next; Accumulate next]).
Proof.
  intros Ha Hne Hm Hal Hg Hl H1 H2.
  rewrite average_unfold by exact Ha.
  set (n := length (good ++ next :: rest)).
  destruct (aligned_columns Lt Lx Ly ms Hal) as (Ht & Hx & Hy).
  destruct ms as [|m ms].
  { inversion Hm; subst. congruence. }
  rewrite visit_all_app.
  rewrite (visit_all_valid self n good (m :: ms) Hm
             (PyInt 0) (PyInt 0) (PyInt 0) _ _ _ []
             (sum_terms_from_zero n Lt (t m) (map t ms) Ht)
             (sum_terms_from_zero n Lx (x m) (map x ms) Hx)
             (sum_terms_from_zero n Ly (y m) (map y ms) Hy)).
  cbn [visit_all]. unfold bind.
  rewrite (visit_mismatch self n next mn _ _ _
             (ValueError Lt (length (t mn))) _ Hg).
  - reflexivity.
  - rewrite array_add_mismatch;
      rewrite ?length_map, ?length_seq, ?array_div_length;
      first [reflexivity | congruence].
Qed.

Lemma average_length_mismatch_witness :
  0 <= __trace_alternance (loaded Scenario.ragged) /\
  [0] <> [] /\
  measured (loaded Scenario.ragged) [0]
    [Scenario.measurement_of
       [Scenario.f 0; Scenario.f 1] [Scenario.f 1; Scenario.f 1]
       [Scenario.f 1; Scenario.f 2]] /\
  get_measurement (loaded Scenario.ragged) 1 =
  Ok (Scenario.measurement_of
        [Scenario.f 0; Scenario.f 1; Scenario.f 2]
        [Scenario.f 1; Scenario.f 1; Scenario.f 1]
        [Scenario.f 3; Scenario.f 4; Scenario.f 5]) /\
  run (average (loaded Scenario.ragged) ([0] ++ 1 :: [0; 7])) =
  (Raise (ValueError 2 3), visited [0] ++ [Validate 1; Accumulate 1]).
Proof.
  assert (H1 : 0 <= __trace_alternance (loaded Scenario.ragged))
    by (simpl; lia).
  assert (H2 : [0] <> @nil Z) by discriminate.
  assert (H3 : measured (loaded Scenario.ragged) [0]
                 [Scenario.measurement_of
                    [Scenario.f 0; Scenario.f 1] [Scenario.f 1; Scenario.f 1]
                    [Scenario.f 1; Scenario.f 2]])
    by (repeat constructor).
  assert (H4 : get_measurement (loaded Scenario.ragged) 1 =
               Ok (Scenario.measurement_of
                     [Scenario.f 0; Scenario.f 1; Scenario.f 2]
                     [Scenario.f 1; Scenario.f 1; Scenario.f 1]
                     [Scenario.f 3; Scenario.f 4; Scenario.f 5]))
    by reflexivity.
  split; [exact H1|]. split; [exact H2|]. split; [exact H3|].
  split; [exact H4|].
  apply (average_length_mismatch (loaded Scenario.ragged) [0] _ 2 2 2 1
           (Scenario.measurement_of
              [Scenario.f 0; Scenario.f 1; Scenario.f 2]
              [Scenario.f 1; Scenario.f 1; Scenario.f 1]
              [Scenario.f 3; Scenario.f 4; Scenario.f 5])
           [0; 7] H1 H2 H3);
    [repeat constructor | exact H4 | | | ]; simpl; lia.
Defined.

(** A trace whose arrays hold one sample is not refused after a trace of
    another length: numpy broadcasts it, and its one sample, divided by 2,
    is added at every position of the first trace.  The result has the
    lengths of the first trace. *)
Theorem average_broadcasts_one_sample
    (self : Experiment) (i j : Z) (mi mj : Measurement ndarray)
    (u v w : F64.float) :
  0 <= __trace_alternance self ->
  get_measurement self i = Ok mi ->
  get_measurement self j = Ok mj ->
  t mj = [u] -> x mj = [v] -> y mj = [w] ->
  outcome (average self [i; j]) =
  Ok {| dt := __dt self;
        duration := __duration self;
        frequencies := __frequencies self;
        t := NdArray (map (fun a => add_term 2 (add_term 2 F64.zero a) u)
                          (t mi));
        x := NdArray (map (fun a => add_term 2 (add_term 2 F64.zero a) v)
                          (x mi));
        y := NdArray (map (fun a => add_term 2 (add_term 2 F64.zero a) w)
                          (y mi)) |}.
Proof.
  intros Ha Hi Hj Ht Hx Hy.
  assert (Hm : measured self [i; j] [mi; mj])
    by (repeat constructor; assumption).
  assert (Hs : forall (a : ndarray) (c : F64.float),
             sum_terms 2 (PyInt 0) [a; [c]] =
             Ok (NdArray
                   (map (fun s => add_term 2 (add_term 2 F64.zero s) c) a))).
  { intros a c. cbn [sum_terms value_add].
    change (array_div [c] 2) with [F64.div c (F64.of_Z (Z.of_nat 2))].
    rewrite array_add_one_sample. unfold array_div.
    rewrite !map_map. reflexivity. }
  unfold outcome. rewrite average_unfold by exact Ha.
  cbn [length].
  rewrite (visit_all_valid self 2 [i; j] [mi; mj] Hm
             (PyInt 0) (PyInt 0) (PyInt 0) _ _ _ []
             (eq_trans (f_equal (fun b => sum_terms 2 (PyInt 0) [t mi; b]) Ht)
                       (Hs (t mi) u))
             (eq_trans (f_equal (fun b => sum_terms 2 (PyInt 0) [x mi; b]) Hx)
                       (Hs (x mi) v))
             (eq_trans (f_equal (fun b => sum_terms 2 (PyInt 0) [y mi; b]) Hy)
                       (Hs (y mi) w))).
  reflexivity.
Qed.

Lemma average_broadcasts_one_sample_witness :
  0 <= __trace_alternance (loaded Cases.broadcast) /\
  get_measurement (loaded Cases.broadcast) 0 =
  Ok (Scenario.m (map Scenario.f [1; 2; 3])) /\
  get_measurement (loaded Cases.broadcast) 1 =
  Ok (Scenario.measurement_of [Scenario.f 5] [Scenario.f 6] [Scenario.f 7]) /\
  exists a,
    outcome (average (loaded Cases.broadcast) [0; 1]) = Ok a /\
    y a = NdArray [Scenario.f 4; Scenario.tenths 45; Scenario.f 5].
Proof.
  assert (H1 : 0 <= __trace_alternance (loaded Cases.broadcast))
    by (simpl; lia).
  assert (H2 : get_measurement (loaded Cases.broadcast) 0 =
               Ok (Scenario.m (map Scenario.f [1; 2; 3]))) by reflexivity.
  assert (H3 : get_measurement (loaded Cases.broadcast) 1 =
               Ok (Scenario.measurement_of
                     [Scenario.f 5] [Scenario.f 6] [Scenario.f 7]))
    by reflexivity.
  split; [exact H1|]. split; [exact H2|]. split; [exact H3|].
  eexists. split.
  - exact (average_broadcasts_one_sample (loaded Cases.broadcast) 0 1 _ _
             _ _ _ H1 H2 H3 eq_refl eq_refl eq_refl).
  - vm_compute. reflexivity.
Defined.

(** ** Error messages *)

Lemma append_cancel_r (s s' q : string) :
  q <> ""%string -> String.length q = 1%nat ->
  (s ++ q = s' ++ q)%string -> s = s'.
Proof.
  intros Hq Hl. revert s'.
  induction s as [|c s IH]; intros [|c' s'] H; simpl in H.
  - reflexivity.
  - apply (f_equal String.length) in H. simpl in H.
    rewrite Hl in H. injection H as H.
    destruct s'; simpl in H; [|discriminate].
    destruct q; [congruence | discriminate].
  - apply (f_equal String.length) in H. simpl in H.
    rewrite Hl in H. injection H as H.
    destruct s; simpl in H; [|discriminate].
    destruct q; [congruence | discriminate].
  - injection H as -> H. f_equal. apply IH. exact H.
Qed.

Lemma index_error_inj (i j : Z) : index_error i = index_error j -> i = j.
Proof.
  unfold index_error. intros H. injection H as H.
  apply append_cancel_r in H; [|discriminate | reflexivity].
  apply format_d_inj. exact H.
Qed.

(** The error of a failed lookup tells the index: two calls of
    [get_measurement] outside the range raise the same error only when they
    were given the same index. *)
Theorem index_error_identifies_index (self : Experiment) (i j : Z) :
  i < 0 \/ i >= count self ->
  j < 0 \/ j >= count self ->
  get_measurement self i = get_measurement self j ->
  i = j.
Proof.
  intros Hi Hj H.
  rewrite !get_measurement_invalid in H by assumption.
  injection H as H. apply index_error_inj.
  unfold index_error. rewrite H. reflexivity.
Qed.

Lemma index_error_identifies_index_witness :
  (-3 < 0 \/ -3 >= count (loaded Scenario.two)) /\
  get_measurement (loaded Scenario.two) (-3) =
  get_measurement (loaded Scenario.two) (0 - 3) /\
  -3 = 0 - 3.
Proof.
  assert (H1 : -3 < 0 \/ -3 >= count (loaded Scenario.two)) by (left; lia).
  assert (H2 : get_measurement (loaded Scenario.two) (-3) =
               get_measurement (loaded Scenario.two) (0 - 3)) by reflexivity.
  split; [exact H1|]. split; [exact H2|].
  exact (index_error_identifies_index (loaded Scenario.two) (-3) (0 - 3)
           H1 H1 H2).
Defined.

(** ** An experiment without traces *)

(** A record with an empty [traces] array builds an experiment of count 0:
    every [get_measurement] raises the [IndexError] of its index, and, under
    a non-negative [trace_alternance], [average] of a non-empty list raises
    the [IndexError] of the first index of the list after testing that
    index alone. *)
Theorem experiment_without_traces (j : Json.record) :
  Json.traces j = [] ->
  exists self,
    __init__ j = Ok self /\
    count self = 0 /\
    (forall index, get_measurement self index = Raise (index_error index)) /\
    (0 <= Json.trace_alternance j ->
     forall index rest,
       run (average self (index :: rest)) =
       (Raise (index_error index), [Validate index])).
Proof.
  intros He. exists (loaded j).
  assert (Hc : count (loaded j) = 0) by (rewrite count_loaded, He; reflexivity).
  split; [apply init_loaded|]. split; [exact Hc|].
  split.
  - intros index. apply get_measurement_invalid. lia.
  - intros Ha index rest.
    rewrite average_unfold by exact Ha.
    cbn [visit_all]. unfold bind.
    rewrite visit_invalid by (apply invalid_index_true; lia).
    reflexivity.
Qed.

Lemma experiment_without_traces_witness :
  Json.traces Cases.empty = [] /\
  0 <= Json.trace_alternance Cases.empty /\
  exists self,
    __init__ Cases.empty = Ok self /\
    count self = 0 /\
    get_measurement self 0 = Raise (index_error 0) /\
    run (average self [0; 1]) = (Raise (index_error 0), [Validate 0]).
Proof.
  assert (H1 : Json.traces Cases.empty = []) by reflexivity.
  assert (H2 : 0 <= Json.trace_alternance Cases.empty) by (simpl; lia).
  split; [exact H1|]. split; [exact H2|].
  destruct (experiment_without_traces Cases.empty H1)
    as (self & Hi & Hc & Hg & Ha).
  exists self. split; [exact Hi|]. split; [exact Hc|].
  split; [apply Hg | apply (Ha H2)].
Defined.

(** ** What a returned measurement implies *)

Lemma value_add_is_array (acc : value) (a : ndarray) (v : value) :
  value_add acc a = Ok v -> is_array v.
Proof.
  destruct acc as [z|b]; simpl.
  - intros [= <-]. exact I.
  - destruct (array_add b a); intros [= <-]. exact I.
Qed.

Lemma visit_ok_inv (self : Experiment) (n : nat) (index : Z)
    (acc acc' : accumulators) (log log' : list event) :
  visit self n index acc log = (Ok acc', log') ->
  0 <= index < count self /\
  log' = log ++ [Validate index; Accumulate index] /\
  is_array (fst (fst acc')) /\ is_array (snd (fst acc')) /\
  is_array (snd acc').
Proof.
  destruct acc as [[t0 x0] y0].
  unfold visit, bind, tell, lift, raise, ret.
  destruct (invalid_index self index) eqn:Ev; [discriminate|].
  destruct (get_measurement self index) as [m|e]; [|discriminate].
  destruct (value_add t0 _) as [t1|e] eqn:Et; [|discriminate].
  destruct (value_add x0 _) as [x1|e] eqn:Ex; [|discriminate].
  destruct (value_add y0 _) as [y1|e] eqn:Ey; [|discriminate].
  intros [= <- <-]. simpl.
  split; [apply invalid_index_false; exact Ev|].
  split; [rewrite <- app_assoc; reflexivity|].
  split; [exact (value_add_is_array _ _ _ Et)|].
  split; [exact (value_add_is_array _ _ _ Ex)|].
  exact (value_add_is_array _ _ _ Ey).
Qed.

Lemma visit_all_ok_inv (self : Experiment) (n : nat) (indices : list Z) :
  forall (acc acc' : accumulators) (log log' : list event),
  visit_all self n indices acc log = (Ok acc', log') ->
  Forall (fun index => 0 <= index < count self) indices /\
  log' = log ++ visited indices /\
  (indices = [] -> acc' = acc) /\
  (indices <> [] ->
   is_array (fst (fst acc')) /\ is_array (snd (fst acc')) /\
   is_array (snd acc')).
Proof.
  induction indices as [|index rest IH]; intros acc acc' log log' H;
    cbn [visit_all] in H.
  - unfold ret in H. injection H as <- <-.
    split; [constructor|]. split; [rewrite app_nil_r; reflexivity|].
    split; [reflexivity | congruence].
  - unfold bind in H.
    destruct (visit self n index acc log) as [[acc1|e] log1] eqn:Ev;
      [|discriminate].
    apply visit_ok_inv in Ev as (Hi & -> & Harr).
    apply IH in H as (Hf & -> & Hnil & Hcons).
    split; [constructor; assumption|].
    split; [cbn [visited flat_map]; rewrite <- app_assoc; reflexivity|].
    split; [discriminate|]. intros _.
    destruct rest as [|index' rest'].
    + rewrite (Hnil eq_refl). exact Harr.
    + apply Hcons. discriminate.
Qed.

(** [average] returns a measurement only after every index of the list
    passed its range test, under a non-negative [trace_alternance]: each
    index was tested and then accumulated, in the order of the list.  The
    measurement carries the [dt], [duration], [frequencies] of the
    experiment, and for a non-empty list its [t], [x], [y] are arrays. *)
Theorem average_success_inv
    (self : Experiment) (indices : list Z) (a : Measurement value) :
  outcome (average self indices) = Ok a ->
  0 <= __trace_alternance self /\
  Forall (fun index => 0 <= index < count self) indices /\
  events (average self indices) = visited indices /\
  dt a = __dt self /\
  duration a = __duration self /\
  frequencies a = __frequencies self /\
  (indices <> [] -> is_array (t a) /\ is_array (x a) /\ is_array (y a)).
Proof.
  unfold outcome, events. intros H.
  destruct (Z_lt_ge_dec (__trace_alternance self) 0) as [Ha|Ha].
  { rewrite average_negative in H by exact Ha. discriminate. }
  apply Z.ge_le in Ha. split; [exact Ha|].
  rewrite average_unfold in * by exact Ha.
  destruct (visit_all self (length indices) indices
              (PyInt 0, PyInt 0, PyInt 0) [])
    as [[[[t1 x1] y1]|e] log] eqn:Ev; [|discriminate].
  apply visit_all_ok_inv in Ev as (Hf & -> & _ & Harr).
  cbn [fst snd] in *. injection H as <-.
  cbn [dt duration frequencies t x y].
  repeat (split; [first [assumption | reflexivity]|]).
  exact Harr.
Qed.

Lemma average_success_inv_witness :
  outcome (average (loaded Scenario.two) [1; 0; 1]) =
  Ok {| dt := Scenario.tenths 1;
        duration := Scenario.f 3;
        frequencies := [Scenario.f 1; Scenario.f 2];
        t := NdArray
               (elementwise_mean
                  [Scenario.times; Scenario.times; Scenario.times] 3);
        x := NdArray
               (elementwise_mean
                  [Scenario.stimuli; Scenario.stimuli; Scenario.stimuli] 3);
        y := NdArray
               (elementwise_mean
                  [map Scenario.f [3; 4; 5]; map Scenario.f [1; 2; 3];
                   map Scenario.f [3; 4; 5]] 3) |} /\
  Forall (fun index => 0 <= index < count (loaded Scenario.two)) [1; 0; 1] /\
  events (average (loaded Scenario.two) [1; 0; 1]) = visited [1; 0; 1].
Proof.
  assert (H1 : outcome (average (loaded Scenario.two) [1; 0; 1]) =
    Ok {| dt := Scenario.tenths 1;
          duration := Scenario.f 3;
          frequencies := [Scenario.f 1; Scenario.f 2];
          t := NdArray
                 (elementwise_mean
                    [Scenario.times; Scenario.times; Scenario.times] 3);
          x := NdArray
                 (elementwise_mean
                    [Scenario.stimuli; Scenario.stimuli; Scenario.stimuli] 3);
          y := NdArray
                 (elementwise_mean
                    [map Scenario.f [3; 4; 5]; map Scenario.f [1; 2; 3];
                     map Scenario.f [3; 4; 5]] 3) |})
    by (vm_compute; reflexivity).
  split; [exact H1|].
  destruct (average_success_inv (loaded Scenario.two) [1; 0; 1] _ H1)
    as (_ & Hf & He & _).
  split; [exact Hf | exact He].
Defined.
